(** * The com.apple.mobile.MCInstall client (src/mcinstall.c)

    A shallow embedding of the configuration-profile client of
    libimobiledevice and of the tool built on it
    (tools/ideviceprofile.c), and the properties of its request
    construction, response classification and status bookkeeping.

    Conventions of the embedding.
    - A property list node is a tree ([plist]); a [plist_t] handle is
      [option plist], [None] standing for the C [NULL].
    - A C string is a [string]; [strcmp(a, b) == 0] is equality.
    - A pointer to a struct is passed as the struct's contents and the
      callee returns the updated contents (explicit state passing).
    - The property list service (the message channel) and the device
      behind it are an oracle: a deterministic function of the history
      of channel calls.  Every call on the channel is appended to a log,
      so that "no request was sent" is a statement about that log.
    - The code is described at two levels.  The first takes a dict for
      the list of its entries and a file for the bytes it delivers, and
      gives what a call returns, its effect on the client and on the
      channel.  It does not follow what [plist_free] does to the
      response when [mcinstall_check_result] hands it a node borrowed
      from the response (lines 78, 84 and 107), nor the size of the
      buffer that [profile_read_from_file] reads into.  The second
      level, [Module Mem], does: the response is kept child by child as
      libplist holds it, [plist_free] takes the node out of its parent,
      a lookup stops the process when libplist's assertion on the kind
      of a child fails, and a read past the allocation is a fault.  A
      call at that level either returns or faults ([run]).  The lemmas
      named [..._returns] relate the two: whenever a call of the second
      level returns, the first level gives its result, its client and
      its channel calls.  The tool is built on the second level. *)

From Stdlib Require Import ZArith List Bool Lia.
From Stdlib.Strings Require Import String Ascii Byte.
From Stdlib Require Import DecimalString.
From Stdlib Require HexadecimalString.
Import ListNotations.

Set Warnings "-register-all".

Local Open Scope string_scope.
Local Open Scope Z_scope.
Local Open Scope list_scope.

(** ** Property lists (libplist, as far as mcinstall.c uses it) *)

Inductive plist_type : Type :=
| PLIST_BOOLEAN | PLIST_UINT | PLIST_REAL | PLIST_STRING | PLIST_ARRAY
| PLIST_DICT | PLIST_DATE | PLIST_DATA | PLIST_KEY | PLIST_UID | PLIST_NONE.

(** A node.  Reals carry their 64-bit pattern, dates seconds and
    microseconds; a dict keeps its entries in insertion order. *)
Inductive plist : Type :=
| PBoolean (b : bool)
| PUint (n : Z)
| PReal (bits : Z)
| PString (s : string)
| PArray (items : list plist)
| PDict (entries : list (string * plist))
| PDate (sec usec : Z)
| PData (bytes : list byte)
| PKey (s : string)
| PUid (n : Z).

Definition plist_t : Type := option plist.

Definition plist_type_eqb (a b : plist_type) : bool :=
  match a, b with
  | PLIST_BOOLEAN, PLIST_BOOLEAN | PLIST_UINT, PLIST_UINT
  | PLIST_REAL, PLIST_REAL | PLIST_STRING, PLIST_STRING
  | PLIST_ARRAY, PLIST_ARRAY | PLIST_DICT, PLIST_DICT
  | PLIST_DATE, PLIST_DATE | PLIST_DATA, PLIST_DATA
  | PLIST_KEY, PLIST_KEY | PLIST_UID, PLIST_UID
  | PLIST_NONE, PLIST_NONE => true
  | _, _ => false
  end.

(** [plist_get_node_type]: the type of a node, [PLIST_NONE] for [NULL]. *)
Definition plist_get_node_type (node : plist_t) : plist_type :=
  match node with
  | None => PLIST_NONE
  | Some (PBoolean _) => PLIST_BOOLEAN
  | Some (PUint _) => PLIST_UINT
  | Some (PReal _) => PLIST_REAL
  | Some (PString _) => PLIST_STRING
  | Some (PArray _) => PLIST_ARRAY
  | Some (PDict _) => PLIST_DICT
  | Some (PDate _ _) => PLIST_DATE
  | Some (PData _) => PLIST_DATA
  | Some (PKey _) => PLIST_KEY
  | Some (PUid _) => PLIST_UID
  end.

Definition plist_new_dict : plist := PDict [].
Definition plist_new_string (s : string) : plist := PString s.
Definition plist_new_uint (n : Z) : plist := PUint n.
Definition plist_new_data (bytes : list byte) : plist := PData bytes.

(** First entry stored under [key]. *)
Fixpoint dict_lookup (entries : list (string * plist)) (key : string) : plist_t :=
  match entries with
  | [] => None
  | (k, v) :: rest => if String.eqb k key then Some v else dict_lookup rest key
  end.

(** Replace the value of an existing key in place, append otherwise. *)
Fixpoint dict_store (entries : list (string * plist)) (key : string) (item : plist)
  : list (string * plist) :=
  match entries with
  | [] => [(key, item)]
  | (k, v) :: rest =>
      if String.eqb k key then (k, item) :: rest
      else (k, v) :: dict_store rest key item
  end.

(** [plist_dict_get_item]: [NULL] when the node is not a dict or has no
    such key. *)
Definition plist_dict_get_item (node : plist_t) (key : string) : plist_t :=
  match node with
  | Some (PDict entries) => dict_lookup entries key
  | _ => None
  end.

(** [plist_dict_set_item]: does nothing on a node that is not a dict. *)
Definition plist_dict_set_item (node : plist) (key : string) (item : plist) : plist :=
  match node with
  | PDict entries => PDict (dict_store entries key item)
  | _ => node
  end.

(** [plist_copy]: a deep copy, rebuilt node by node. *)
Fixpoint plist_copy (node : plist) : plist :=
  match node with
  | PBoolean b => PBoolean b
  | PUint n => PUint n
  | PReal r => PReal r
  | PString s => PString s
  | PArray items => PArray (map plist_copy items)
  | PDict entries => PDict (map (fun kv => (fst kv, plist_copy (snd kv))) entries)
  | PDate s u => PDate s u
  | PData bytes => PData bytes
  | PKey s => PKey s
  | PUid n => PUid n
  end.

(** ** Error codes *)

(** The enum of libimobiledevice/mcinstall.h. *)
Inductive mcinstall_error_t : Type :=
| MCINSTALL_E_SUCCESS
| MCINSTALL_E_INVALID_ARG
| MCINSTALL_E_PLIST_ERROR
| MCINSTALL_E_CONN_FAILED
| MCINSTALL_E_REQUEST_FAILED
| MCINSTALL_E_UNKNOWN_ERROR.

(** The integer behind each enumerator. *)
Definition mcinstall_error_code (e : mcinstall_error_t) : Z :=
  match e with
  | MCINSTALL_E_SUCCESS => 0
  | MCINSTALL_E_INVALID_ARG => -1
  | MCINSTALL_E_PLIST_ERROR => -2
  | MCINSTALL_E_CONN_FAILED => -3
  | MCINSTALL_E_REQUEST_FAILED => -4
  | MCINSTALL_E_UNKNOWN_ERROR => -256
  end.

(** [a == b] on enumerators is the comparison of their integers. *)
Definition mcinstall_error_eqb (a b : mcinstall_error_t) : bool :=
  mcinstall_error_code a =? mcinstall_error_code b.

(** Modelled from the spec: the error type of the message channel,
    whose declaration (property_list_service.h) is not among the
    sources.  The four enumerators that mcinstall.c names are kept
    apart; every other failure the transport surfaces is
    [PROPERTY_LIST_SERVICE_E_other] with its integer. *)
Inductive property_list_service_error_t : Type :=
| PROPERTY_LIST_SERVICE_E_SUCCESS
| PROPERTY_LIST_SERVICE_E_INVALID_ARG
| PROPERTY_LIST_SERVICE_E_PLIST_ERROR
| PROPERTY_LIST_SERVICE_E_MUX_ERROR
| PROPERTY_LIST_SERVICE_E_other (code : Z).

(** [mcinstall_error]: the switch of lines 44-59. *)
Definition mcinstall_error (err : property_list_service_error_t) : mcinstall_error_t :=
  match err with
  | PROPERTY_LIST_SERVICE_E_SUCCESS => MCINSTALL_E_SUCCESS
  | PROPERTY_LIST_SERVICE_E_INVALID_ARG => MCINSTALL_E_INVALID_ARG
  | PROPERTY_LIST_SERVICE_E_PLIST_ERROR => MCINSTALL_E_PLIST_ERROR
  | PROPERTY_LIST_SERVICE_E_MUX_ERROR => MCINSTALL_E_CONN_FAILED
  | PROPERTY_LIST_SERVICE_E_other _ => MCINSTALL_E_UNKNOWN_ERROR
  end.

(** ** The result classifier *)

(** printf's [%d] applied to the 32-bit loop counter. *)
Definition int32_of_uint32 (j : Z) : Z :=
  let m := j mod 2 ^ 32 in if m <? 2 ^ 31 then m else m - 2 ^ 32.

Definition fmt_d (j : Z) : string :=
  NilZero.string_of_int (Z.to_int (int32_of_uint32 j)).

Definition newline : string := String (ascii_of_nat 10) EmptyString.

(** The body of the loop of lines 94-105 at index [j]: the text written
    to standard output for one entry of the error chain. *)
Definition print_error (j : Z) (error : plist) : list string :=
  match error with
  | PDict _ =>
      match plist_dict_get_item (Some error) "LocalizedDescription" with
      | Some (PString error_string) =>
          [("Error " ++ fmt_d j ++ " : " ++ error_string ++ newline)%string]
      | _ => []
      end
  | _ => []
  end.

(** The loop itself, from index [j] on. *)
Fixpoint print_error_chain (j : Z) (errors : list plist) : list string :=
  match errors with
  | [] => []
  | error :: rest => print_error j error ++ print_error_chain (j + 1) rest
  end.

(** [mcinstall_check_result response status_code] (lines 70-111).
    [status_code] is the integer the pointer argument points to; the
    second component of the result is that integer when the function
    returns (the body has no assignment through the pointer), the third
    what the function printed.  The response is taken for its entries:
    the three calls of [plist_free] are followed in
    [Mem.mcinstall_check_result], which also tells on which responses
    the lookup of line 90 does not come back. *)
Definition mcinstall_check_result (response : plist_t) (status_code : Z)
  : mcinstall_error_t * Z * list string :=
  if negb (plist_type_eqb (plist_get_node_type response) PLIST_DICT) then
    (MCINSTALL_E_PLIST_ERROR, status_code, [])
  else
    match plist_dict_get_item response "Status" with
    | Some (PString status) =>
        if String.eqb status "Acknowledged" then
          (MCINSTALL_E_SUCCESS, status_code, [])
        else if String.eqb status "Error" then
          match plist_dict_get_item response "ErrorChain" with
          | Some (PArray errors) =>
              (MCINSTALL_E_PLIST_ERROR, status_code, print_error_chain 0 errors)
          | _ => (MCINSTALL_E_PLIST_ERROR, status_code, [])
          end
        else (MCINSTALL_E_REQUEST_FAILED, status_code, [])
    | _ => (MCINSTALL_E_PLIST_ERROR, status_code, [])
    end.

(** ** The client and its channel *)

(** Modelled from the spec: the connection a message channel wraps,
    [NULL] or a handle (the declaration is not among the sources). *)
Definition service_client_t : Type := option nat.

(** Modelled from the spec: [struct property_list_service_client_private],
    the message channel handle, declared in property_list_service.h,
    which is not among the sources.  mcinstall.c reads one field of it,
    the connection, called [parent] in C ([client->parent->parent] in
    [mcinstall_client_free]). *)
Record property_list_service_client_private : Type :=
  { service_parent : service_client_t }.

Definition property_list_service_client_t : Type :=
  option property_list_service_client_private.

(** [struct mcinstall_client_private] (src/mcinstall.h). *)
Record mcinstall_client_private : Type :=
  { parent : property_list_service_client_t;
    last_error : Z }.

Definition mcinstall_client_t : Type := option mcinstall_client_private.

(** [client->last_error = v]. *)
Definition set_last_error (c : mcinstall_client_private) (v : Z)
  : mcinstall_client_private :=
  {| parent := parent c; last_error := v |}.

(** One call on the channel. *)
Inductive channel_call : Type :=
| Send (chan : property_list_service_client_private) (request : plist)
| Receive (chan : property_list_service_client_private)
| Release (chan : property_list_service_client_private).

(** Modelled from the spec: the message channel and the device behind
    it (property_list_service.c is not among the sources), as what they
    answer to a send, a receive and a release given the calls made
    before.  A receive answers with an error code and the response, which
    may be [NULL]. *)
Record device : Type :=
  { send_reply :
      list channel_call -> property_list_service_client_private -> plist ->
      property_list_service_error_t;
    receive_reply :
      list channel_call -> property_list_service_client_private ->
      property_list_service_error_t * plist_t;
    free_reply :
      list channel_call -> property_list_service_client_private ->
      property_list_service_error_t }.

(** What the code can change outside the client: the channel (its calls
    so far, oldest first) and standard output (one entry per printf). *)
Record world : Type :=
  { calls : list channel_call;
    stdout : list string }.

Definition log_call (w : world) (c : channel_call) : world :=
  {| calls := calls w ++ [c]; stdout := stdout w |}.

Definition printf (w : world) (lines : list string) : world :=
  {| calls := calls w; stdout := stdout w ++ lines |}.

Definition is_send (c : channel_call) : bool :=
  match c with Send _ _ => true | _ => false end.

Definition is_receive (c : channel_call) : bool :=
  match c with Receive _ => true | _ => false end.

Definition is_release (c : channel_call) : bool :=
  match c with Release _ => true | _ => false end.

(** How many calls of a kind a log holds. *)
Definition count_calls (kind : channel_call -> bool) (l : list channel_call) : nat :=
  List.length (filter kind l).

Section Client.

(** The device on the other end of the channel. *)
Variable dev : device.

(** libplist's [plist_to_bin], the binary property list encoder. *)
Variable plist_to_bin : plist -> list byte.

(** Modelled from the spec: the three functions of the message channel
    that mcinstall.c calls.  Each logs the call and returns the answer
    of the device. *)
Definition property_list_service_send_xml_plist
    (chan : property_list_service_client_private) (dict : plist) (w : world)
  : property_list_service_error_t * world :=
  (send_reply dev (calls w) chan dict, log_call w (Send chan dict)).

Definition property_list_service_receive_plist
    (chan : property_list_service_client_private) (w : world)
  : property_list_service_error_t * plist_t * world :=
  (receive_reply dev (calls w) chan, log_call w (Receive chan)).

Definition property_list_service_client_free
    (chan : property_list_service_client_private) (w : world)
  : property_list_service_error_t * world :=
  (free_reply dev (calls w) chan, log_call w (Release chan)).

(** [mcinstall_client_free] (lines 136-149).  The struct is gone
    afterwards, so only the return value and the world are left. *)
Definition mcinstall_client_free (client : mcinstall_client_t) (w : world)
  : mcinstall_error_t * world :=
  match client with
  | None => (MCINSTALL_E_INVALID_ARG, w)
  | Some c =>
      let err := MCINSTALL_E_SUCCESS in
      let w :=
        match parent c with
        | Some chan =>
            match service_parent chan with
            | Some _ =>
                let '(e, w) := property_list_service_client_free chan w in
                let _ := mcinstall_error e in
                w
            | None => w
            end
        | None => w
        end in
      (err, w)
  end.

(** [mcinstall_install] (lines 151-185).  [debug_info] writes to the
    debug log only and is left out. *)
Definition mcinstall_install
    (client : mcinstall_client_t) (profile : plist_t) (w : world)
  : mcinstall_error_t * mcinstall_client_t * world :=
  match client with
  | None => (MCINSTALL_E_INVALID_ARG, client, w)
  | Some c =>
  match parent c with
  | None => (MCINSTALL_E_INVALID_ARG, client, w)
  | Some chan =>
  match profile with
  | None => (MCINSTALL_E_INVALID_ARG, client, w)
  | Some prof =>
  if negb (plist_type_eqb (plist_get_node_type profile) PLIST_DATA) then
    (MCINSTALL_E_INVALID_ARG, client, w)
  else
    let c := set_last_error c (mcinstall_error_code MCINSTALL_E_UNKNOWN_ERROR) in
    let dict := plist_new_dict in
    let dict := plist_dict_set_item dict "RequestType" (plist_new_string "InstallProfile") in
    let dict := plist_dict_set_item dict "Payload" (plist_copy prof) in
    let '(e, w) := property_list_service_send_xml_plist chan dict w in
    let res := mcinstall_error e in
    if negb (mcinstall_error_eqb res MCINSTALL_E_SUCCESS) then (res, Some c, w)
    else
      let '(e, dict, w) := property_list_service_receive_plist chan w in
      let res := mcinstall_error e in
      if negb (mcinstall_error_eqb res MCINSTALL_E_SUCCESS) then (res, Some c, w)
      else
        match dict with
        | None => (MCINSTALL_E_UNKNOWN_ERROR, Some c, w)
        | Some _ =>
            let '(res, status, out) := mcinstall_check_result dict (last_error c) in
            (res, Some (set_last_error c status), printf w out)
        end
  end end end.

(** [mcinstall_get_profile_list] (lines 187-224).  [profiles] is the
    pointer argument: [None] for [NULL], else the [plist_t] it points
    to; the third component of the result is that [plist_t] when the
    function returns.  What the dict stored at line 218 still holds
    after the classifier has been through the response is followed in
    [Mem.mcinstall_get_profile_list]. *)
Definition mcinstall_get_profile_list
    (client : mcinstall_client_t) (profiles : option plist_t) (w : world)
  : mcinstall_error_t * mcinstall_client_t * option plist_t * world :=
  match client with
  | None => (MCINSTALL_E_INVALID_ARG, client, profiles, w)
  | Some c =>
  match parent c with
  | None => (MCINSTALL_E_INVALID_ARG, client, profiles, w)
  | Some chan =>
  match profiles with
  | None => (MCINSTALL_E_INVALID_ARG, client, profiles, w)
  | Some _ =>
    let c := set_last_error c (mcinstall_error_code MCINSTALL_E_UNKNOWN_ERROR) in
    let dict := plist_new_dict in
    let dict := plist_dict_set_item dict "RequestType" (plist_new_string "GetProfileList") in
    let '(e, w) := property_list_service_send_xml_plist chan dict w in
    let res := mcinstall_error e in
    if negb (mcinstall_error_eqb res MCINSTALL_E_SUCCESS) then
      let w := printf w [("could not send plist, error " ++ fmt_d (mcinstall_error_code res))%string] in
      (res, Some c, profiles, w)
    else
      let '(e, dict, w) := property_list_service_receive_plist chan w in
      let res := mcinstall_error e in
      if negb (mcinstall_error_eqb res MCINSTALL_E_SUCCESS) then
        let w := printf w [("could not receive response, error " ++ fmt_d (mcinstall_error_code res))%string] in
        (res, Some c, profiles, w)
      else
        match dict with
        | None =>
            let w := printf w ["could not get response plist"] in
            (MCINSTALL_E_UNKNOWN_ERROR, Some c, profiles, w)
        | Some response =>
            let '(res, status, out) := mcinstall_check_result dict (last_error c) in
            let c := set_last_error c status in
            let w := printf w out in
            if mcinstall_error_eqb res MCINSTALL_E_SUCCESS then
              (res, Some c, Some (Some (plist_copy response)), w)
            else (res, Some c, profiles, w)
        end
  end end end.

(** [mcinstall_remove] (lines 226-273).  A [const char*] argument is
    [None] for [NULL]; [payloadVersion] is the [uint64_t] as an
    integer; [bin] holds the [bin_len] bytes that [plist_to_bin]
    wrote. *)
Definition mcinstall_remove
    (client : mcinstall_client_t) (payloadIdentifier payloadUUID : option string)
    (payloadVersion : Z) (w : world)
  : mcinstall_error_t * mcinstall_client_t * world :=
  match client with
  | None => (MCINSTALL_E_INVALID_ARG, client, w)
  | Some c =>
  match parent c with
  | None => (MCINSTALL_E_INVALID_ARG, client, w)
  | Some chan =>
  match payloadIdentifier with
  | None => (MCINSTALL_E_INVALID_ARG, client, w)
  | Some identifier =>
  match payloadUUID with
  | None => (MCINSTALL_E_INVALID_ARG, client, w)
  | Some uuid =>
  if payloadVersion =? 0 then (MCINSTALL_E_INVALID_ARG, client, w)
  else
    let c := set_last_error c (mcinstall_error_code MCINSTALL_E_UNKNOWN_ERROR) in
    let data := plist_new_dict in
    let data := plist_dict_set_item data "PayloadType" (plist_new_string "Configuration") in
    let data := plist_dict_set_item data "PayloadIdentifier" (plist_new_string identifier) in
    let data := plist_dict_set_item data "PayloadUUID" (plist_new_string uuid) in
    let data := plist_dict_set_item data "PayloadVersion" (plist_new_uint payloadVersion) in
    let bin := plist_to_bin data in
    let dict := plist_new_dict in
    let dict := plist_dict_set_item dict "RequestType" (plist_new_string "RemoveProfile") in
    let dict := plist_dict_set_item dict "ProfileIdentifier" (plist_new_data bin) in
    let '(e, w) := property_list_service_send_xml_plist chan dict w in
    let res := mcinstall_error e in
    if negb (mcinstall_error_eqb res MCINSTALL_E_SUCCESS) then (res, Some c, w)
    else
      let '(e, dict, w) := property_list_service_receive_plist chan w in
      let res := mcinstall_error e in
      if negb (mcinstall_error_eqb res MCINSTALL_E_SUCCESS) then (res, Some c, w)
      else
        match dict with
        | None => (MCINSTALL_E_UNKNOWN_ERROR, Some c, w)
        | Some _ =>
            let '(res, status, out) := mcinstall_check_result dict (last_error c) in
            (res, Some (set_last_error c status), printf w out)
        end
  end end end end.

(** [mcinstall_get_status_code] (lines 275-281): a read of the client,
    which it leaves as it is. *)
Definition mcinstall_get_status_code (client : mcinstall_client_t) : Z :=
  match client with
  | None => -1
  | Some c => last_error c
  end.

End Client.

(** ** Running an operation *)

(** A client that is not [NULL] and has a channel. *)
Definition connected (chan : property_list_service_client_private) (status : Z)
  : mcinstall_client_t :=
  Some {| parent := Some chan; last_error := status |}.

Definition unknown_status : Z := mcinstall_error_code MCINSTALL_E_UNKNOWN_ERROR.

(** The requests the three operations build. *)
Definition install_request (payload : plist) : plist :=
  PDict [("RequestType", PString "InstallProfile"); ("Payload", payload)].

Definition list_request : plist :=
  PDict [("RequestType", PString "GetProfileList")].

Definition profile_descriptor (identifier uuid : string) (version : Z) : plist :=
  PDict [("PayloadType", PString "Configuration");
         ("PayloadIdentifier", PString identifier);
         ("PayloadUUID", PString uuid);
         ("PayloadVersion", PUint version)].

Definition remove_request (bin : list byte) : plist :=
  PDict [("RequestType", PString "RemoveProfile"); ("ProfileIdentifier", PData bin)].

(** What an operation that sends [request] on [chan] from the world [w]
    owes its caller when the channel fails: the mapped error of the
    failed call, the unknown sentinel in the client, and no call on the
    channel after the failed one. *)
Definition io_failure_propagated
    (dev : device) (chan : property_list_service_client_private) (request : plist)
    (w : world) (res : mcinstall_error_t) (client' : mcinstall_client_t)
    (w' : world) : Prop :=
  let sent := send_reply dev (calls w) chan request in
  let received := fst (receive_reply dev (calls w ++ [Send chan request]) chan) in
  (sent <> PROPERTY_LIST_SERVICE_E_SUCCESS ->
   res = mcinstall_error sent /\
   client' = connected chan unknown_status /\
   calls w' = calls w ++ [Send chan request]) /\
  (sent = PROPERTY_LIST_SERVICE_E_SUCCESS ->
   received <> PROPERTY_LIST_SERVICE_E_SUCCESS ->
   res = mcinstall_error received /\
   client' = connected chan unknown_status /\
   calls w' = calls w ++ [Send chan request; Receive chan]).

(** The channel calls that [mcinstall_client_free] makes on [c]. *)
Definition release_calls (c : mcinstall_client_private) : list channel_call :=
  match parent c with
  | Some chan =>
      match service_parent chan with
      | Some _ => [Release chan]
      | None => []
      end
  | None => []
  end.

(** ** Devices used to run the client on concrete inputs *)

Definition PLS_OK : property_list_service_error_t := PROPERTY_LIST_SERVICE_E_SUCCESS.

(** Accepts every request and answers every receive with [reply]. *)
Definition answering (reply : plist_t) : device :=
  {| send_reply := fun _ _ _ => PLS_OK;
     receive_reply := fun _ _ => (PLS_OK, reply);
     free_reply := fun _ _ => PLS_OK |}.

(** Fails every send with [e]. *)
Definition refusing (e : property_list_service_error_t) : device :=
  {| send_reply := fun _ _ _ => e;
     receive_reply := fun _ _ => (PLS_OK, None);
     free_reply := fun _ _ => PLS_OK |}.

(** Accepts every request, then fails every receive with [e]; releasing
    the channel fails with [e] too. *)
Definition silent (e : property_list_service_error_t) : device :=
  {| send_reply := fun _ _ _ => PLS_OK;
     receive_reply := fun _ _ => (e, None);
     free_reply := fun _ _ => e |}.

Definition chan0 : property_list_service_client_private :=
  {| service_parent := Some 1%nat |}.

Definition client0 : mcinstall_client_private :=
  {| parent := Some chan0; last_error := 0 |}.

Definition world0 : world := {| calls := []; stdout := [] |}.

Definition acknowledged : plist := PDict [("Status", PString "Acknowledged")].

(** The answer of a device on which no profile is installed. *)
Definition no_profiles : plist :=
  PDict [("OrderedIdentifiers", PArray []);
         ("ProfileMetadata", PDict []);
         ("Status", PString "Acknowledged")].

(** ** A binary encoding of property lists

    Not libplist's format: a self-delimiting encoding to run the
    removal request on.  Integers are written bit by bit, a byte
    sequence after its length, a node after a tag. *)

Fixpoint put_positive (p : positive) : list byte :=
  match p with
  | xH => [x01]
  | xO p => x02 :: put_positive p
  | xI p => x03 :: put_positive p
  end.

Definition put_Z (z : Z) : list byte :=
  match z with
  | Z0 => [x00]
  | Zpos p => x01 :: put_positive p
  | Zneg p => x02 :: put_positive p
  end.

Definition put_bytes (bs : list byte) : list byte :=
  put_Z (Z.of_nat (List.length bs)) ++ bs.

Definition put_string (s : string) : list byte := put_bytes (list_byte_of_string s).

Fixpoint tlv_encode (p : plist) : list byte :=
  match p with
  | PBoolean b => [x10; if b then x01 else x00]
  | PUint n => x11 :: put_Z n
  | PReal r => x12 :: put_Z r
  | PString s => x13 :: put_string s
  | PArray items =>
      x14 :: put_Z (Z.of_nat (List.length items)) ++ List.concat (map tlv_encode items)
  | PDict entries =>
      x15 :: put_Z (Z.of_nat (List.length entries)) ++
        List.concat (map (fun kv => put_string (fst kv) ++ tlv_encode (snd kv)) entries)
  | PDate s u => x16 :: put_Z s ++ put_Z u
  | PData bs => x17 :: put_bytes bs
  | PKey s => x18 :: put_string s
  | PUid n => x19 :: put_Z n
  end.

(** ** The rest of mcinstall.c *)

(** [mcinstall_client_new] (lines 113-127).  [new_reply] is what
    [property_list_service_client_new] returns and what it leaves in
    [plistclient], which starts as [NULL]; [client] is what the output
    pointer points to before the call (the pointer is written through
    without a check), the second component of the result what it points
    to afterwards.  The result of [malloc] is used unchecked and taken
    to be a fresh struct. *)
Definition mcinstall_client_new
    (new_reply : property_list_service_error_t * property_list_service_client_t)
    (client : mcinstall_client_t)
  : mcinstall_error_t * mcinstall_client_t :=
  let plistclient := snd new_reply in
  let err := mcinstall_error (fst new_reply) in
  if negb (mcinstall_error_eqb err MCINSTALL_E_SUCCESS) then (err, client)
  else
    let client_loc := {| parent := plistclient; last_error := 0 |} in
    (MCINSTALL_E_SUCCESS, Some client_loc).

(** ** Vocabulary of the further properties *)

(** The description an entry of an error chain carries, if any. *)
Definition error_description (error : plist) : option string :=
  match plist_dict_get_item (Some error) "LocalizedDescription" with
  | Some (PString d) => Some d
  | _ => None
  end.

(** The line printed for the description [d] of the entry at position
    [j]. *)
Definition error_line (j : Z) (d : string) : string :=
  ("Error " ++ fmt_d j ++ " : " ++ d ++ newline)%string.

(** The entries of a chain with their positions, from [0]. *)
Definition numbered (errors : list plist) : list (Z * plist) :=
  combine (map Z.of_nat (seq 0 (List.length errors))) errors.

(** What a send of [request] on [chan] followed by a receive and the
    classification of the response comes to, read off the answers of the
    device. *)
Definition exchange_result
    (dev : device) (chan : property_list_service_client_private)
    (request : plist) (w : world) : mcinstall_error_t :=
  match send_reply dev (calls w) chan request with
  | PROPERTY_LIST_SERVICE_E_SUCCESS =>
      match receive_reply dev (calls w ++ [Send chan request]) chan with
      | (PROPERTY_LIST_SERVICE_E_SUCCESS, Some response) =>
          fst (fst (mcinstall_check_result (Some response) unknown_status))
      | (PROPERTY_LIST_SERVICE_E_SUCCESS, None) => MCINSTALL_E_UNKNOWN_ERROR
      | (e, _) => mcinstall_error e
      end
  | e => mcinstall_error e
  end.

(** The device accepts [request] and answers it with a dict whose
    Status is "Acknowledged". *)
Definition acknowledges
    (dev : device) (chan : property_list_service_client_private)
    (request : plist) (w : world) : Prop :=
  send_reply dev (calls w) chan request = PROPERTY_LIST_SERVICE_E_SUCCESS /\
  exists response,
    receive_reply dev (calls w ++ [Send chan request]) chan
    = (PROPERTY_LIST_SERVICE_E_SUCCESS, Some response) /\
    plist_dict_get_item (Some response) "Status" = Some (PString "Acknowledged").

(** Logs in which every receive comes right after a send on the same
    channel. *)
Inductive exchanges : list channel_call -> Prop :=
| exchanges_nil : exchanges []
| exchanges_send l chan request :
    exchanges l -> exchanges (l ++ [Send chan request])
| exchanges_round_trip l chan request :
    exchanges l -> exchanges (l ++ [Send chan request; Receive chan])
| exchanges_release l chan :
    exchanges l -> exchanges (l ++ [Release chan]).

(** What one operation on [client] may add to the log: nothing, a send
    on the channel of [client], or that send followed by a receive on
    the same channel. *)
Definition exchange_on (client : mcinstall_client_t) (block : list channel_call)
  : Prop :=
  block = [] \/
  exists c chan request,
    client = Some c /\ parent c = Some chan /\
    (block = [Send chan request] \/ block = [Send chan request; Receive chan]).

(** A call of one of the three operations, with its arguments. *)
Inductive operation_call : Type :=
| CallInstall (profile : plist_t)
| CallGetProfileList (profiles : option plist_t)
| CallRemove (payloadIdentifier payloadUUID : option string) (payloadVersion : Z).

(** The call made on a client in a world; what is left are the client
    and the world. *)
Definition run_call (dev : device) (to_bin : plist -> list byte)
    (state : mcinstall_client_t * world) (c : operation_call)
  : mcinstall_client_t * world :=
  let '(client, w) := state in
  match c with
  | CallInstall profile =>
      let r := mcinstall_install dev client profile w in (snd (fst r), snd r)
  | CallGetProfileList profiles =>
      let r := mcinstall_get_profile_list dev client profiles w in
      (snd (fst (fst r)), snd r)
  | CallRemove identifier uuid version =>
      let r := mcinstall_remove dev to_bin client identifier uuid version w in
      (snd (fst r), snd r)
  end.

(** A sequence of calls on the same client, one after the other. *)
Definition run_calls (dev : device) (to_bin : plist -> list byte)
    (state : mcinstall_client_t * world) (cs : list operation_call)
  : mcinstall_client_t * world :=
  fold_left (run_call dev to_bin) cs state.

(** ** The tool: tools/ideviceprofile.c *)

(** What the C library shows of an opened file: the position that
    [ftell] reports at its end, and what the successive calls of [fread]
    for 512 bytes deliver, nothing once the list is used up. *)
Record opened_file : Type :=
  { file_size : Z;
    file_reads : list (list byte) }.

(** The C library under the tool: what [fopen] finds under a path
    ([None] for [NULL]) and whether [malloc] of a size succeeds. *)
Record libc : Type :=
  { fopen : string -> option opened_file;
    malloc_ok : Z -> bool }.

(** printf's [%ld] and [%x]. *)
Definition fmt_ld (z : Z) : string := NilZero.string_of_int (Z.to_int z).

Definition fmt_x (z : Z) : string :=
  HexadecimalString.NilZero.string_of_uint (N.to_hex_uint (Z.to_N (z mod 2 ^ 32))).

(** The loop of lines 110-116: [cur] bytes are in [buf] and [reads] is
    what [fread] will still deliver.  The size of the allocation is
    followed in [Mem.read_loop]. *)
Fixpoint read_loop (size cur : Z) (buf : list byte) (reads : list (list byte))
  : Z * list byte :=
  if cur <? size then
    match reads with
    | [] => (cur, buf)
    | chunk :: reads =>
        let r := Z.of_nat (List.length chunk) in
        if r <=? 0 then (cur, buf)
        else read_loop size (cur + r) (buf ++ chunk) reads
    end
  else (cur, buf).

(** [profile_read_from_file] (lines 85-129).  [profile_data] and
    [profile_size] are what the two output pointers point to; the
    result is the return value, what they point to afterwards and what
    was written to standard error. *)
Definition profile_read_from_file
    (c : libc) (path : string) (profile_data : option (list byte)) (profile_size : Z)
  : Z * option (list byte) * Z * list string :=
  match fopen c path with
  | None =>
      (-1, profile_data, profile_size,
       [("Could not open file '" ++ path ++ "'" ++ newline)%string])
  | Some f =>
      let size := file_size f in
      if size >=? 16777216 then
        (-1, profile_data, profile_size,
         [("The file '" ++ path ++ "' is too large for processing." ++ newline)%string])
      else if negb (malloc_ok c size) then
        (-1, profile_data, profile_size,
         [("Could not allocate memory..." ++ newline)%string])
      else
        let '(cur, buf) := read_loop size 0 [] (file_reads f) in
        if negb (cur =? size) then
          (-1, profile_data, profile_size,
           [("Could not read in file '" ++ path ++ "' (size " ++ fmt_ld size
             ++ " read " ++ fmt_ld cur ++ ")" ++ newline)%string])
        else (0, Some buf, size mod 2 ^ 32, [])
  end.

(** ** The response as libplist holds it

    libplist keeps a dict as a node whose children are, in turn, the key
    node and the value of each entry.  [plist_dict_get_item] walks them
    two at a time, asserts that every child it stops at is a key and
    hands back the child after the first matching key; [plist_free]
    takes the node it is given out of its parent's children before it
    releases it.  A value that comes from [plist_dict_get_item] is still
    a child of the dict, so freeing it leaves the dict with a key that
    has no value and with every later entry one place off. *)

(** A call that may not come back: [Faults] stands for a failed
    assertion, which aborts the process, and for an access through
    [NULL] or outside an allocation. *)
Inductive run (A : Type) : Type :=
| Returns (a : A)
| Faults.

Arguments Returns {A} a.
Arguments Faults {A}.

Definition bind {A B : Type} (m : run A) (f : A -> run B) : run B :=
  match m with
  | Returns a => f a
  | Faults => Faults
  end.

Notation "x <- m ;; f" := (bind m (fun x => f))
  (at level 61, m at next level, right associativity).

Notation "' p <- m ;; f" := (bind m (fun x => match x with p => f end))
  (at level 61, p pattern, m at next level, right associativity).

(** The children of the dict that holds [entries]. *)
Definition dict_children (entries : list (string * plist)) : list plist :=
  flat_map (fun kv => [PKey (fst kv); snd kv]) entries.

(** The walk of [plist_dict_get_item] over the children of a dict, of
    which the first is child number [index]: the child after the first
    key that equals [key], with its number; [None] ([NULL]) when the
    walk runs out of children or the key it found is the last child.
    A child the walk stops at and that is not a key fails the
    assertion (without the assertion, its data would be read as the
    string of a key). *)
Fixpoint children_get_item (children : list plist) (key : string) (index : nat)
  : run (option (nat * plist)) :=
  match children with
  | [] => Returns None
  | PKey k :: following =>
      if String.eqb key k then
        match following with
        | [] => Returns None
        | item :: _ => Returns (Some (S index, item))
        end
      else
        match following with
        | [] => Returns None
        | _ :: children => children_get_item children key (S (S index))
        end
  | _ :: _ => Faults
  end.

(** [plist_free] on child number [index]: the children that are left. *)
Definition children_detach (children : list plist) (index : nat) : list plist :=
  firstn index children ++ skipn (S index) children.

(** A node as its owner holds it: a tree in which every dict has its
    children in pairs, or a dict given child by child. *)
Inductive node : Type :=
| Paired (p : plist)
| Unpaired (children : list plist).

Definition node_t : Type := option node.

Definition node_children (n : node_t) : list plist :=
  match n with
  | Some (Paired (PDict entries)) => dict_children entries
  | Some (Unpaired children) => children
  | _ => []
  end.

(** [plist_dict_get_item] on such a node. *)
Definition node_dict_get_item (n : node_t) (key : string) : run plist_t :=
  match n with
  | Some (Paired (PDict _)) | Some (Unpaired _) =>
      item <- children_get_item (node_children n) key 0 ;;
      Returns (option_map snd item)
  | _ => Returns None
  end.

(** [plist_copy] on such a node: the copy has a copy of each child, in
    the same order. *)
Definition node_copy (n : node) : node :=
  match n with
  | Paired p => Paired (plist_copy p)
  | Unpaired children => Unpaired (map plist_copy children)
  end.

(** The entries of a dict in front of its first entry for [key], and
    the entries behind that one. *)
Fixpoint before_key (entries : list (string * plist)) (key : string)
  : list (string * plist) :=
  match entries with
  | [] => []
  | (k, v) :: rest => if String.eqb k key then [] else (k, v) :: before_key rest key
  end.

Fixpoint after_key (entries : list (string * plist)) (key : string)
  : list (string * plist) :=
  match entries with
  | [] => []
  | (k, v) :: rest => if String.eqb k key then rest else after_key rest key
  end.

Module Mem.

(** [mcinstall_check_result] (lines 70-111) with the response child by
    child.  The fourth component of the result is the response as the
    function leaves it: without the value of Status (lines 78 and 84)
    and without the node found for ErrorChain (line 107). *)
Definition mcinstall_check_result (response : plist_t) (status_code : Z)
  : run (mcinstall_error_t * Z * list string * node_t) :=
  if negb (plist_type_eqb (plist_get_node_type response) PLIST_DICT) then
    Returns (MCINSTALL_E_PLIST_ERROR, status_code, [], option_map Paired response)
  else
    let children := node_children (option_map Paired response) in
    node <- children_get_item children "Status" 0 ;;
    match node with
    | Some (index, PString status) =>
        let children := children_detach children index in
        if String.eqb status "Acknowledged" then
          Returns (MCINSTALL_E_SUCCESS, status_code, [], Some (Unpaired children))
        else if String.eqb status "Error" then
          error_chain <- children_get_item children "ErrorChain" 0 ;;
          match error_chain with
          | Some (index, PArray errors) =>
              Returns (MCINSTALL_E_PLIST_ERROR, status_code, print_error_chain 0 errors,
                       Some (Unpaired (children_detach children index)))
          | Some (index, _) =>
              Returns (MCINSTALL_E_PLIST_ERROR, status_code, [],
                       Some (Unpaired (children_detach children index)))
          | None =>
              Returns (MCINSTALL_E_PLIST_ERROR, status_code, [],
                       Some (Unpaired children))
          end
        else
          Returns (MCINSTALL_E_REQUEST_FAILED, status_code, [], Some (Unpaired children))
    | Some (index, _) =>
        Returns (MCINSTALL_E_PLIST_ERROR, status_code, [],
                 Some (Unpaired (children_detach children index)))
    | None =>
        Returns (MCINSTALL_E_PLIST_ERROR, status_code, [], Some (Unpaired children))
    end.

Section Client.

Variable dev : device.
Variable plist_to_bin : plist -> list byte.

(** [mcinstall_install] (lines 151-185). *)
Definition mcinstall_install
    (client : mcinstall_client_t) (profile : plist_t) (w : world)
  : run (mcinstall_error_t * mcinstall_client_t * world) :=
  match client with
  | None => Returns (MCINSTALL_E_INVALID_ARG, client, w)
  | Some c =>
  match parent c with
  | None => Returns (MCINSTALL_E_INVALID_ARG, client, w)
  | Some chan =>
  match profile with
  | None => Returns (MCINSTALL_E_INVALID_ARG, client, w)
  | Some prof =>
  if negb (plist_type_eqb (plist_get_node_type profile) PLIST_DATA) then
    Returns (MCINSTALL_E_INVALID_ARG, client, w)
  else
    let c := set_last_error c (mcinstall_error_code MCINSTALL_E_UNKNOWN_ERROR) in
    let dict := plist_new_dict in
    let dict := plist_dict_set_item dict "RequestType" (plist_new_string "InstallProfile") in
    let dict := plist_dict_set_item dict "Payload" (plist_copy prof) in
    let '(e, w) := property_list_service_send_xml_plist dev chan dict w in
    let res := mcinstall_error e in
    if negb (mcinstall_error_eqb res MCINSTALL_E_SUCCESS) then Returns (res, Some c, w)
    else
      let '(e, dict, w) := property_list_service_receive_plist dev chan w in
      let res := mcinstall_error e in
      if negb (mcinstall_error_eqb res MCINSTALL_E_SUCCESS) then Returns (res, Some c, w)
      else
        match dict with
        | None => Returns (MCINSTALL_E_UNKNOWN_ERROR, Some c, w)
        | Some _ =>
            '(res, status, out, _) <- mcinstall_check_result dict (last_error c) ;;
            Returns (res, Some (set_last_error c status), printf w out)
        end
  end end end.

(** [mcinstall_get_profile_list] (lines 187-224).  What line 218 stores
    is the copy of the response as the classifier left it. *)
Definition mcinstall_get_profile_list
    (client : mcinstall_client_t) (profiles : option node_t) (w : world)
  : run (mcinstall_error_t * mcinstall_client_t * option node_t * world) :=
  match client with
  | None => Returns (MCINSTALL_E_INVALID_ARG, client, profiles, w)
  | Some c =>
  match parent c with
  | None => Returns (MCINSTALL_E_INVALID_ARG, client, profiles, w)
  | Some chan =>
  match profiles with
  | None => Returns (MCINSTALL_E_INVALID_ARG, client, profiles, w)
  | Some _ =>
    let c := set_last_error c (mcinstall_error_code MCINSTALL_E_UNKNOWN_ERROR) in
    let dict := plist_new_dict in
    let dict := plist_dict_set_item dict "RequestType" (plist_new_string "GetProfileList") in
    let '(e, w) := property_list_service_send_xml_plist dev chan dict w in
    let res := mcinstall_error e in
    if negb (mcinstall_error_eqb res MCINSTALL_E_SUCCESS) then
      let w := printf w [("could not send plist, error " ++ fmt_d (mcinstall_error_code res))%string] in
      Returns (res, Some c, profiles, w)
    else
      let '(e, dict, w) := property_list_service_receive_plist dev chan w in
      let res := mcinstall_error e in
      if negb (mcinstall_error_eqb res MCINSTALL_E_SUCCESS) then
        let w := printf w [("could not receive response, error " ++ fmt_d (mcinstall_error_code res))%string] in
        Returns (res, Some c, profiles, w)
      else
        match dict with
        | None =>
            let w := printf w ["could not get response plist"] in
            Returns (MCINSTALL_E_UNKNOWN_ERROR, Some c, profiles, w)
        | Some _ =>
            '(res, status, out, dict) <- mcinstall_check_result dict (last_error c) ;;
            let c := set_last_error c status in
            let w := printf w out in
            if mcinstall_error_eqb res MCINSTALL_E_SUCCESS then
              Returns (res, Some c, Some (option_map node_copy dict), w)
            else Returns (res, Some c, profiles, w)
        end
  end end end.

(** [mcinstall_remove] (lines 226-273). *)
Definition mcinstall_remove
    (client : mcinstall_client_t) (payloadIdentifier payloadUUID : option string)
    (payloadVersion : Z) (w : world)
  : run (mcinstall_error_t * mcinstall_client_t * world) :=
  match client with
  | None => Returns (MCINSTALL_E_INVALID_ARG, client, w)
  | Some c =>
  match parent c with
  | None => Returns (MCINSTALL_E_INVALID_ARG, client, w)
  | Some chan =>
  match payloadIdentifier with
  | None => Returns (MCINSTALL_E_INVALID_ARG, client, w)
  | Some identifier =>
  match payloadUUID with
  | None => Returns (MCINSTALL_E_INVALID_ARG, client, w)
  | Some uuid =>
  if payloadVersion =? 0 then Returns (MCINSTALL_E_INVALID_ARG, client, w)
  else
    let c := set_last_error c (mcinstall_error_code MCINSTALL_E_UNKNOWN_ERROR) in
    let data := plist_new_dict in
    let data := plist_dict_set_item data "PayloadType" (plist_new_string "Configuration") in
    let data := plist_dict_set_item data "PayloadIdentifier" (plist_new_string identifier) in
    let data := plist_dict_set_item data "PayloadUUID" (plist_new_string uuid) in
    let data := plist_dict_set_item data "PayloadVersion" (plist_new_uint payloadVersion) in
    let bin := plist_to_bin data in
    let dict := plist_new_dict in
    let dict := plist_dict_set_item dict "RequestType" (plist_new_string "RemoveProfile") in
    let dict := plist_dict_set_item dict "ProfileIdentifier" (plist_new_data bin) in
    let '(e, w) := property_list_service_send_xml_plist dev chan dict w in
    let res := mcinstall_error e in
    if negb (mcinstall_error_eqb res MCINSTALL_E_SUCCESS) then Returns (res, Some c, w)
    else
      let '(e, dict, w) := property_list_service_receive_plist dev chan w in
      let res := mcinstall_error e in
      if negb (mcinstall_error_eqb res MCINSTALL_E_SUCCESS) then Returns (res, Some c, w)
      else
        match dict with
        | None => Returns (MCINSTALL_E_UNKNOWN_ERROR, Some c, w)
        | Some _ =>
            '(res, status, out, _) <- mcinstall_check_result dict (last_error c) ;;
            Returns (res, Some (set_last_error c status), printf w out)
        end
  end end end end.

End Client.

(** The loop of lines 110-116 on a buffer of [size] bytes (line 102):
    [fread] is asked for 512 bytes at [buf+cur] whatever is left of the
    buffer, so a delivery of more bytes than are left is written past
    the allocation. *)
Fixpoint read_loop (size cur : Z) (buf : list byte) (reads : list (list byte))
  : run (Z * list byte) :=
  if cur <? size then
    match reads with
    | [] => Returns (cur, buf)
    | chunk :: reads =>
        let r := Z.of_nat (List.length chunk) in
        if r <=? 0 then Returns (cur, buf)
        else if size <? cur + r then Faults
        else read_loop size (cur + r) (buf ++ chunk) reads
    end
  else Returns (cur, buf).

(** [profile_read_from_file] (lines 85-129) with that loop. *)
Definition profile_read_from_file
    (c : libc) (path : string) (profile_data : option (list byte)) (profile_size : Z)
  : run (Z * option (list byte) * Z * list string) :=
  match fopen c path with
  | None =>
      Returns (-1, profile_data, profile_size,
               [("Could not open file '" ++ path ++ "'" ++ newline)%string])
  | Some f =>
      let size := file_size f in
      if size >=? 16777216 then
        Returns (-1, profile_data, profile_size,
                 [("The file '" ++ path ++ "' is too large for processing."
                   ++ newline)%string])
      else if negb (malloc_ok c size) then
        Returns (-1, profile_data, profile_size,
                 [("Could not allocate memory..." ++ newline)%string])
      else
        '(cur, buf) <- read_loop size 0 [] (file_reads f) ;;
        if negb (cur =? size) then
          Returns (-1, profile_data, profile_size,
                   [("Could not read in file '" ++ path ++ "' (size " ++ fmt_ld size
                     ++ " read " ++ fmt_ld cur ++ ")" ++ newline)%string])
        else Returns (0, Some buf, size mod 2 ^ 32, [])
  end.

End Mem.

(** ** The commands of the tool *)

(** The values of [op] in [main]. *)
Inductive op_t : Type := OP_INSTALL | OP_LIST | OP_REMOVE | OP_REMOVE_ALL.

Definition op_eqb (a b : op_t) : bool :=
  match a, b with
  | OP_INSTALL, OP_INSTALL | OP_LIST, OP_LIST
  | OP_REMOVE, OP_REMOVE | OP_REMOVE_ALL, OP_REMOVE_ALL => true
  | _, _ => false
  end.

(** What the tool carries through a command: the client, the world and
    what it has written to standard error. *)
Definition tool_state : Type := mcinstall_client_t * world * list string.

(** Lines 316-330: the display name, the uuid and the version that the
    metadata hold for the identifier [p_iden], [NULL], [NULL] and [0]
    where they hold none. *)
Definition profile_entry (profile_metadata : plist) (p_iden : string)
  : option string * option string * Z :=
  match plist_dict_get_item (Some profile_metadata) p_iden with
  | Some (PDict entries) =>
      let profile := Some (PDict entries) in
      let p_name :=
        match plist_dict_get_item profile "PayloadDisplayName" with
        | Some (PString s) => Some s
        | _ => None
        end in
      let p_uuid :=
        match plist_dict_get_item profile "PayloadUUID" with
        | Some (PString s) => Some s
        | _ => None
        end in
      let p_vers :=
        match plist_dict_get_item profile "PayloadVersion" with
        | Some (PUint n) => n
        | _ => 0
        end in
      (p_name, p_uuid, p_vers)
  | _ => (None, None, 0)
  end.

(** [(p) ? p : text]. *)
Definition or_text (p : option string) (text : string) : string :=
  match p with Some s => s | None => text end.

(** The line of line 332. *)
Definition profile_line (profile_metadata : plist) (p_iden : string) : string :=
  let '(p_name, p_uuid, _) := profile_entry profile_metadata p_iden in
  (p_iden ++ " - " ++ or_text p_uuid "(unknown id)" ++ " - "
   ++ or_text p_name "(no name)" ++ newline)%string.

(** The line of line 302. *)
Definition profiles_header (num_profiles : Z) : string :=
  ("Device has " ++ fmt_d num_profiles ++ " configuration "
   ++ (if (num_profiles =? 1)%Z then "profile" else "profiles") ++ " installed"
   ++ (if (num_profiles =? 0)%Z then "." else ":") ++ newline)%string.

Definition removed_line (shown : string) : string :=
  ("Profile '" ++ shown ++ "' removed." ++ newline)%string.

Definition not_removed_line (shown : string) (sc : Z) : string :=
  ("Could not remove profile '" ++ shown ++ "', status code 0x" ++ fmt_x sc
   ++ newline)%string.

(** Lines 337-342 and 346-351: the removal of a profile and the report
    on it, under the name [shown]. *)
Definition remove_and_report
    (dev : device) (to_bin : plist -> list byte) (shown p_iden : string)
    (p_uuid : option string) (p_vers : Z) (st : tool_state) : run tool_state :=
  let '(mis, w, err) := st in
  '(r, mis, w) <- Mem.mcinstall_remove dev to_bin mis (Some p_iden) p_uuid p_vers w ;;
  if mcinstall_error_eqb r MCINSTALL_E_SUCCESS then
    Returns (mis, printf w [removed_line shown], err)
  else
    let sc := mcinstall_get_status_code mis in
    Returns (mis, w, err ++ [not_removed_line shown sc]).

(** The body of the loop of lines 305-356 on the entry [pl] of
    OrderedIdentifiers.  An entry that is not a string leaves [p_iden]
    at [NULL]: the lookup of line 315 then hands [NULL] to [strcmp] at
    the first key of the metadata, and comes back (with [NULL]) only
    when the metadata have no entry; after that "list" prints its
    placeholders, "remove" hands [NULL] to [strcmp] at line 336 and
    "remove-all", whose [mcinstall_remove] refuses the [NULL]
    identifier, hands it to [fprintf] for a [%s] at line 350. *)
Definition profile_step
    (dev : device) (to_bin : plist -> list byte) (op : op_t) (param : option string)
    (profile_metadata : plist) (pl : plist) (st : tool_state) : run tool_state :=
  match pl with
  | PString p_iden =>
      let '(p_name, p_uuid, p_vers) := profile_entry profile_metadata p_iden in
      if op_eqb op OP_LIST then
        let '(mis, w, err) := st in
        Returns (mis, printf w [profile_line profile_metadata p_iden], err)
      else
        match (if op_eqb op OP_REMOVE then param else None) with
        | Some prm =>
            if String.eqb prm p_iden then
              remove_and_report dev to_bin prm p_iden p_uuid p_vers st
            else Returns st
        | None =>
            if op_eqb op OP_REMOVE_ALL then
              remove_and_report dev to_bin p_iden p_iden p_uuid p_vers st
            else Returns st
        end
  | _ =>
      match profile_metadata with
      | PDict [] =>
          if op_eqb op OP_LIST then
            let '(mis, w, err) := st in
            Returns (mis,
                     printf w [("(unknown identifier) - (unknown id) - (no name)"
                                ++ newline)%string],
                     err)
          else
            match (if op_eqb op OP_REMOVE then param else None) with
            | Some _ => Faults
            | None => if op_eqb op OP_REMOVE_ALL then Faults else Returns st
            end
      | _ => Faults
      end
  end.

(** The loop of lines 305-356 over the entries of OrderedIdentifiers. *)
Fixpoint profile_loop
    (dev : device) (to_bin : plist -> list byte) (op : op_t) (param : option string)
    (profile_metadata : plist) (items : list plist) (st : tool_state)
  : run tool_state :=
  match items with
  | [] => Returns st
  | pl :: items =>
      st <- profile_step dev to_bin op param profile_metadata pl st ;;
      profile_loop dev to_bin op param profile_metadata items st
  end.

(** The case [OP_INSTALL] of the switch (lines 267-286), with the
    return value [res] of [main].  [main] never gets there with a
    [NULL] file name. *)
Definition install_command
    (c : libc) (dev : device) (param : option string) (st : tool_state)
  : run (Z * tool_state) :=
  match param with
  | None => Faults
  | Some path =>
      let '(mis, w, err) := st in
      '(rc, profile_data, profile_size, lines) <-
        Mem.profile_read_from_file c path None 0 ;;
      let err := err ++ lines in
      if negb (rc =? 0) then Returns (0, (mis, w, err))
      else
        match profile_data with
        | None => Faults
        | Some data =>
            let psize := profile_size in
            let pdata := plist_new_data (firstn (Z.to_nat psize) data) in
            '(r, mis, w) <- Mem.mcinstall_install dev mis (Some pdata) w ;;
            if mcinstall_error_eqb r MCINSTALL_E_SUCCESS then
              Returns (0, (mis,
                           printf w [("Profile '" ++ path ++ "' installed successfully."
                                      ++ newline)%string],
                           err))
            else
              let sc := mcinstall_get_status_code mis in
              Returns (0, (mis, w,
                           err ++ [("Could not install profile '" ++ path
                                    ++ "', status code: 0x" ++ fmt_x sc
                                    ++ newline)%string]))
        end
  end.

(** The cases [OP_REMOVE], [OP_REMOVE_ALL] and [OP_LIST] of the switch
    (lines 287-371).  [profiles] is the dict that
    [mcinstall_get_profile_list] stored: the two lookups of lines
    297-298 walk its children as the classifier left them. *)
Definition list_command
    (dev : device) (to_bin : plist -> list byte) (op : op_t) (param : option string)
    (st : tool_state) : run (Z * tool_state) :=
  let '(mis, w, err) := st in
  '(merr, mis, profiles, w) <- Mem.mcinstall_get_profile_list dev mis (Some None) w ;;
  if mcinstall_error_eqb merr MCINSTALL_E_SUCCESS then
    let profiles := match profiles with Some p => p | None => None end in
    ordered_identifiers <- node_dict_get_item profiles "OrderedIdentifiers" ;;
    profile_metadata <- node_dict_get_item profiles "ProfileMetadata" ;;
    match ordered_identifiers, profile_metadata with
    | Some (PArray items), Some (PDict metadata) =>
        let num_profiles := Z.of_nat (List.length items) mod 2 ^ 32 in
        let w := if op_eqb op OP_LIST then printf w [profiles_header num_profiles]
                 else w in
        st <- profile_loop dev to_bin op param (PDict metadata)
                (firstn (Z.to_nat num_profiles) items) (mis, w, err) ;;
        Returns (0, st)
    | _, _ =>
        Returns (-1, (mis, w,
                      err ++ [("Malformed output from mcinstall." ++ newline)%string]))
    end
  else
    let sc := mcinstall_get_status_code mis in
    Returns (-1, (mis, w,
                  err ++ [("Could not get installed profiles from device, status code: 0x"
                           ++ fmt_x sc ++ newline)%string])).

(** [main] from the switch of line 266 to its return: the command on
    the client [mis], then [mcinstall_client_free]; the result is the
    return value, the world and what was written to standard error. *)
Definition main_run
    (c : libc) (dev : device) (to_bin : plist -> list byte) (op : op_t)
    (param : option string) (mis : mcinstall_client_t) (w : world)
  : run (Z * world * list string) :=
  '(res, (mis, w, err)) <-
    (if op_eqb op OP_INSTALL then install_command c dev param (mis, w, [])
     else list_command dev to_bin op param (mis, w, [])) ;;
  let '(_, w) := mcinstall_client_free dev mis w in
  Returns (res, w, err).

(** A file that holds [content] and is read without incident: [fread]
    delivers it 512 bytes at a time. *)
Fixpoint chunks_of (fuel : nat) (bytes : list byte) : list (list byte) :=
  match fuel with
  | O => []
  | S fuel =>
      match bytes with
      | [] => []
      | _ => firstn 512 bytes :: chunks_of fuel (skipn 512 bytes)
      end
  end.

Definition regular_file (content : list byte) : opened_file :=
  {| file_size := Z.of_nat (List.length content);
     file_reads := chunks_of (List.length content) content |}.

(** The device answers the listing request with a dict whose Status is
    "Acknowledged" and which holds, in front of its Status entry,
    [items] under OrderedIdentifiers and [metadata] under
    ProfileMetadata. *)
Definition lists
    (dev : device) (chan : property_list_service_client_private) (w : world)
    (items : list plist) (metadata : list (string * plist)) : Prop :=
  send_reply dev (calls w) chan list_request = PROPERTY_LIST_SERVICE_E_SUCCESS /\
  exists entries,
    receive_reply dev (calls w ++ [Send chan list_request]) chan
    = (PROPERTY_LIST_SERVICE_E_SUCCESS, Some (PDict entries)) /\
    dict_lookup entries "Status" = Some (PString "Acknowledged") /\
    dict_lookup (before_key entries "Status") "OrderedIdentifiers"
    = Some (PArray items) /\
    dict_lookup (before_key entries "Status") "ProfileMetadata"
    = Some (PDict metadata).

(** The error chain of a response is within reach of the lookup of line
    90: the Status of the response is not the string "Error", or the
    response has an entry for ErrorChain in front of its Status entry,
    or it has no entry behind its Status entry. *)
Definition chain_in_reach (response : plist_t) : bool :=
  match response with
  | Some (PDict entries) =>
      match dict_lookup entries "Status" with
      | Some (PString status) =>
          if String.eqb status "Error" then
            match dict_lookup (before_key entries "Status") "ErrorChain",
                  after_key entries "Status" with
            | Some _, _ => true
            | None, [] => true
            | None, _ :: _ => false
            end
          else true
      | _ => true
      end
  | _ => true
  end.

(** A device all of whose responses have their error chain within
    reach. *)
Definition answers_in_reach (dev : device) : Prop :=
  forall l chan response,
    receive_reply dev l chan = (PROPERTY_LIST_SERVICE_E_SUCCESS, Some response) ->
    chain_in_reach (Some response) = true.

(** A file whose reads deliver no more bytes in all than the size that
    [ftell] reported. *)
Definition within_size (f : opened_file) : Prop :=
  Z.of_nat (List.length (List.concat (file_reads f))) <= file_size f.

(** The removal request the tool sends for the identifier [p_iden]:
    none when the metadata hold no uuid or no version other than 0 for
    it. *)
Definition removal_request
    (to_bin : plist -> list byte) (profile_metadata : plist) (p_iden : string)
  : option plist :=
  match profile_entry profile_metadata p_iden with
  | (_, Some p_uuid, p_vers) =>
      if p_vers =? 0 then None
      else Some (remove_request (to_bin (profile_descriptor p_iden p_uuid p_vers)))
  | (_, None, _) => None
  end.

(** A device that accepts every request and answers every receive with
    a dict whose Status is "Acknowledged". *)
Definition cooperative (dev : device) : Prop :=
  (forall l chan request,
     send_reply dev l chan request = PROPERTY_LIST_SERVICE_E_SUCCESS) /\
  (forall l chan,
     exists response,
       receive_reply dev l chan = (PROPERTY_LIST_SERVICE_E_SUCCESS, Some response) /\
       plist_dict_get_item (Some response) "Status" = Some (PString "Acknowledged")).

(** ** A file system and a listing to run the tool on *)

Definition profile0 : list byte := [x3c; x3f; x78; x6d; x6c].

(** One file; [malloc(0)] gives [NULL]. *)
Definition libc0 : libc :=
  {| fopen := fun path =>
       if String.eqb path "wifi.mobileconfig" then Some (regular_file profile0)
       else None;
     malloc_ok := fun size => 0 <? size |}.

(** Two profiles, the second without uuid and version. *)
Definition metadata0 : list (string * plist) :=
  [("com.example.wifi",
    PDict [("PayloadDisplayName", PString "Wifi");
           ("PayloadUUID", PString "6A1F-22C0");
           ("PayloadVersion", PUint 1)]);
   ("com.example.vpn", PDict [("PayloadDisplayName", PString "VPN")])].

Definition listing0 : plist :=
  PDict [("OrderedIdentifiers",
          PArray [PString "com.example.wifi"; PString "com.example.vpn"]);
         ("ProfileMetadata", PDict metadata0);
         ("Status", PString "Acknowledged")].

(** * Properties *)

(** ** Basic facts *)

Lemma mcinstall_error_eqb_eq (a b : mcinstall_error_t) :
  mcinstall_error_eqb a b = true <-> a = b.
Proof.
  unfold mcinstall_error_eqb; rewrite Z.eqb_eq; split; [|now intros ->].
  destruct a, b; cbn; intros H; try reflexivity; discriminate H.
Qed.

Lemma plist_type_eqb_eq (a b : plist_type) : plist_type_eqb a b = true <-> a = b.
Proof. destruct a, b; cbn; split; intros H; try reflexivity; discriminate H. Qed.

(** The classifier never writes through [status_code]. *)
Lemma mcinstall_check_result_status (response : plist_t) (status_code : Z) :
  snd (fst (mcinstall_check_result response status_code)) = status_code.
Proof.
  unfold mcinstall_check_result.
  destruct (negb _); [reflexivity|].
  destruct (plist_dict_get_item response "Status") as [[]|]; try reflexivity.
  destruct (String.eqb _ _); [reflexivity|].
  destruct (String.eqb _ _); [|reflexivity].
  destruct (plist_dict_get_item response "ErrorChain") as [[]|]; reflexivity.
Qed.

Lemma count_calls_app kind (a b : list channel_call) :
  count_calls kind (a ++ b) = (count_calls kind a + count_calls kind b)%nat.
Proof. unfold count_calls. now rewrite filter_app, length_app. Qed.

(** A deep copy is the same tree. *)
Fixpoint plist_copy_same (node : plist) : plist_copy node = node.
Proof.
  destruct node as [| | | |items|entries| | | |]; cbn; try reflexivity.
  - f_equal. induction items as [|item items IH]; cbn; [reflexivity|].
    now rewrite plist_copy_same, IH.
  - f_equal. induction entries as [|[k v] entries IH]; cbn; [reflexivity|].
    now rewrite plist_copy_same, IH.
Qed.

(** ** The classifier on the responses of the specification *)

Example check_result_acknowledged :
  mcinstall_check_result (Some (PDict [("Status", PString "Acknowledged")])) 7
  = (MCINSTALL_E_SUCCESS, 7, []).
Proof. reflexivity. Qed.

Example check_result_pending :
  mcinstall_check_result (Some (PDict [("Status", PString "Pending")])) 7
  = (MCINSTALL_E_REQUEST_FAILED, 7, []).
Proof. reflexivity. Qed.

(** ** The result classifier *)

(** *** Walks over the children of a dict *)

(** A dict falls into the entries in front of the first one for a key
    it holds, that entry, and the entries behind it. *)
Lemma dict_lookup_split entries key v :
  dict_lookup entries key = Some v ->
  entries = before_key entries key ++ (key, v) :: after_key entries key /\
  dict_lookup (before_key entries key) key = None.
Proof.
  induction entries as [|[k x] entries IH]; cbn; [intros H; discriminate H|].
  destruct (String.eqb k key) eqn:Hk.
  - apply String.eqb_eq in Hk. subst k. intros [= ->]. split; reflexivity.
  - intros H. destruct (IH H) as [Hsplit Hnone]. cbn. rewrite Hk.
    split; [now rewrite <- Hsplit|exact Hnone].
Qed.

(** The children of a dict made of two runs of entries. *)
Lemma dict_children_app a b :
  dict_children (a ++ b) = dict_children a ++ dict_children b.
Proof. unfold dict_children. apply flat_map_app. Qed.

(** What the entries in front hold, the whole dict holds. *)
Lemma dict_lookup_before entries key other v :
  dict_lookup (before_key entries key) other = Some v ->
  dict_lookup entries other = Some v.
Proof.
  induction entries as [|[k x] entries IH]; cbn; [intros H; discriminate H|].
  destruct (String.eqb k key); [intros H; discriminate H|].
  cbn. destruct (String.eqb k other); auto.
Qed.

(** The walk through the children of [front] and on into [rest]. *)
Lemma children_get_item_app front rest key :
  forall index,
    children_get_item (dict_children front ++ rest) key index
    = match dict_lookup front key with
      | Some v =>
          Returns (Some (S (index + List.length (dict_children (before_key front key))), v))
      | None => children_get_item rest key (index + List.length (dict_children front))
      end.
Proof.
  induction front as [|[k x] front IH]; intros index.
  - cbn. now rewrite Nat.add_0_r.
  - cbn [dict_children flat_map fst snd app dict_lookup before_key children_get_item].
    rewrite String.eqb_sym. destruct (String.eqb k key) eqn:Hk.
    + cbn. now rewrite Nat.add_0_r.
    + fold (dict_children front). rewrite IH.
      destruct (dict_lookup front key).
      * cbn [dict_children flat_map fst snd app List.length].
        fold (dict_children (before_key front key)).
        do 3 f_equal. f_equal. lia.
      * cbn [List.length app]. f_equal. lia.
Qed.

(** On children in pairs the walk is the lookup in the entries. *)
Lemma children_get_item_paired entries key :
  children_get_item (dict_children entries) key 0
  = Returns match dict_lookup entries key with
            | Some v => Some (S (List.length (dict_children (before_key entries key))), v)
            | None => None
            end.
Proof.
  rewrite <- (app_nil_r (dict_children entries)), children_get_item_app.
  now destruct (dict_lookup entries key).
Qed.

(** Taking the value of an entry out leaves its key behind. *)
Lemma children_detach_value entries key v :
  dict_lookup entries key = Some v ->
  children_detach (dict_children entries)
    (S (List.length (dict_children (before_key entries key))))
  = dict_children (before_key entries key)
    ++ PKey key :: dict_children (after_key entries key).
Proof.
  intros H. destruct (dict_lookup_split entries key v H) as [Hsplit _].
  rewrite Hsplit at 1. rewrite dict_children_app. unfold children_detach.
  cbn [dict_children flat_map fst snd app]. fold (dict_children (after_key entries key)).
  set (front := dict_children (before_key entries key)).
  set (back := dict_children (after_key entries key)).
  replace (S (List.length front)) with (List.length (front ++ [PKey key]))
    by (rewrite length_app; cbn; lia).
  replace (front ++ PKey key :: v :: back) with ((front ++ [PKey key]) ++ v :: back)
    by (now rewrite <- app_assoc).
  rewrite firstn_app, firstn_all, Nat.sub_diag. cbn [firstn].
  rewrite app_nil_r.
  replace (S (List.length (front ++ [PKey key])))
    with (List.length ((front ++ [PKey key]) ++ [v]))
    by (rewrite !length_app; cbn; lia).
  replace ((front ++ [PKey key]) ++ v :: back) with (((front ++ [PKey key]) ++ [v]) ++ back)
    by (now rewrite <- !app_assoc).
  rewrite skipn_app, skipn_all, Nat.sub_diag. cbn [skipn app].
  now rewrite <- app_assoc.
Qed.

(** *** The classifier on the children of the response *)

(** The classifier on a dict, by the entries in front of its Status
    entry and those behind it. *)

Lemma mem_check_result_dict entries status_code :
  Mem.mcinstall_check_result (Some (PDict entries)) status_code
  = let left :=
      dict_children (before_key entries "Status")
      ++ PKey "Status" :: dict_children (after_key entries "Status") in
    match dict_lookup entries "Status" with
    | Some (PString status) =>
        if String.eqb status "Acknowledged" then
          Returns (MCINSTALL_E_SUCCESS, status_code, [], Some (Unpaired left))
        else if String.eqb status "Error" then
          error_chain <- children_get_item left "ErrorChain" 0 ;;
          match error_chain with
          | Some (index, PArray errors) =>
              Returns (MCINSTALL_E_PLIST_ERROR, status_code, print_error_chain 0 errors,
                       Some (Unpaired (children_detach left index)))
          | Some (index, _) =>
              Returns (MCINSTALL_E_PLIST_ERROR, status_code, [],
                       Some (Unpaired (children_detach left index)))
          | None =>
              Returns (MCINSTALL_E_PLIST_ERROR, status_code, [], Some (Unpaired left))
          end
        else Returns (MCINSTALL_E_REQUEST_FAILED, status_code, [], Some (Unpaired left))
    | Some _ => Returns (MCINSTALL_E_PLIST_ERROR, status_code, [], Some (Unpaired left))
    | None =>
        Returns (MCINSTALL_E_PLIST_ERROR, status_code, [],
                 Some (Unpaired (dict_children entries)))
    end.
Proof.
  cbv zeta. unfold Mem.mcinstall_check_result.
  cbn [plist_get_node_type plist_type_eqb negb option_map node_children].
  rewrite children_get_item_paired.
  destruct (dict_lookup entries "Status") as [v|] eqn:Hstatus; [|reflexivity].
  cbn [bind]. rewrite (children_detach_value entries "Status" v Hstatus).
  destruct v; reflexivity.
Qed.

(** The lookup of line 90 once the value of Status is gone. *)
Lemma children_get_item_behind_status front back key index :
  String.eqb key "Status" = false ->
  children_get_item (dict_children front ++ PKey "Status" :: dict_children back) key index
  = match dict_lookup front key with
    | Some v =>
        Returns (Some (S (index + List.length (dict_children (before_key front key))), v))
    | None =>
        match back with
        | [] => Returns None
        | (_, item) :: back =>
            children_get_item (item :: dict_children back) key
              (S (S (index + List.length (dict_children front))))
        end
    end.
Proof.
  intros Hkey. rewrite children_get_item_app.
  destruct (dict_lookup front key); [reflexivity|].
  cbn [children_get_item]. rewrite Hkey.
  destruct back as [|[k item] back]; reflexivity.
Qed.

(** A dict that ends with its entry for [key] holds what the entries in
    front of that one hold. *)
Lemma dict_lookup_behind entries key other :
  String.eqb key other = false ->
  dict_lookup (before_key entries key) other = None ->
  after_key entries key = [] ->
  dict_lookup entries other = None.
Proof.
  intros Hne. induction entries as [|[k x] entries IH]; cbn; [reflexivity|].
  destruct (String.eqb k key) eqn:Hk.
  - apply String.eqb_eq in Hk. subst k. rewrite Hne. now intros _ ->.
  - cbn. destruct (String.eqb k other); [intros H; discriminate H|exact IH].
Qed.

(** Where the error chain is within reach, the classifier returns, and
    returns what the entries of the response give. *)
Lemma mem_check_result_in_reach response status_code :
  chain_in_reach response = true ->
  exists left,
    Mem.mcinstall_check_result response status_code
    = Returns (mcinstall_check_result response status_code, left).
Proof.
  destruct response as [[| | | | |entries| | | |]|]; try (intros _; eexists; reflexivity).
  rewrite mem_check_result_dict. cbv zeta. unfold chain_in_reach, mcinstall_check_result.
  cbn [plist_get_node_type plist_type_eqb negb plist_dict_get_item].
  destruct (dict_lookup entries "Status") as [[| | |status| | | | | |]|] eqn:Hstatus;
    try (intros _; eexists; reflexivity).
  destruct (String.eqb status "Acknowledged"); [intros _; eexists; reflexivity|].
  destruct (String.eqb status "Error"); [|intros _; eexists; reflexivity].
  rewrite children_get_item_behind_status by reflexivity.
  destruct (dict_lookup (before_key entries "Status") "ErrorChain") as [v|] eqn:Hchain.
  - intros _. rewrite (dict_lookup_before _ _ _ _ Hchain). cbn [bind].
    destruct v; eexists; reflexivity.
  - destruct (after_key entries "Status") as [|[k item] back] eqn:Hback;
      [|intros H; discriminate H].
    intros _. rewrite (dict_lookup_behind entries "Status" "ErrorChain" eq_refl Hchain Hback).
    eexists; reflexivity.
Qed.

(** Whenever the classifier returns, its result and what it leaves
    behind [status_code] are those the entries of the response give. *)
Lemma mem_check_result_returns response status_code res status out left :
  Mem.mcinstall_check_result response status_code = Returns (res, status, out, left) ->
  fst (fst (mcinstall_check_result response status_code)) = res /\ status = status_code.
Proof.
  destruct response as [[| | | | |entries| | | |]|];
    try (intros [= <- <- _ _]; split; reflexivity).
  rewrite mem_check_result_dict. cbv zeta. unfold mcinstall_check_result.
  cbn [plist_get_node_type plist_type_eqb negb plist_dict_get_item].
  destruct (dict_lookup entries "Status") as [[| | |s| | | | | |]|];
    try (intros [= <- <- _ _]; split; reflexivity).
  destruct (String.eqb s "Acknowledged"); [intros [= <- <- _ _]; split; reflexivity|].
  destruct (String.eqb s "Error"); [|intros [= <- <- _ _]; split; reflexivity].
  destruct (children_get_item _ "ErrorChain" 0) as [[[index []]|]|]; cbn [bind];
    try (intros H; discriminate H);
    intros [= <- <- _ _];
    (split; [|reflexivity]);
    destruct (dict_lookup entries "ErrorChain") as [[]|]; reflexivity.
Qed.

(** On an acknowledged response. *)
Lemma mem_check_result_acknowledged entries status_code :
  dict_lookup entries "Status" = Some (PString "Acknowledged") ->
  Mem.mcinstall_check_result (Some (PDict entries)) status_code
  = Returns (MCINSTALL_E_SUCCESS, status_code, [],
             Some (Unpaired (dict_children (before_key entries "Status")
                             ++ PKey "Status" :: dict_children (after_key entries "Status")))).
Proof. intros H. rewrite mem_check_result_dict. cbv zeta. now rewrite H. Qed.

(** A dict written as the entries in front of an entry for a key they
    do not hold, that entry, and the entries behind it. *)
Lemma dict_lookup_at front key v back :
  dict_lookup front key = None ->
  dict_lookup (front ++ (key, v) :: back) key = Some v /\
  before_key (front ++ (key, v) :: back) key = front /\
  after_key (front ++ (key, v) :: back) key = back.
Proof.
  induction front as [|[k x] front IH]; cbn.
  - intros _. now rewrite String.eqb_refl.
  - destruct (String.eqb k key); [intros H; discriminate H|].
    intros H. destruct (IH H) as (H1 & H2 & H3). now rewrite H1, H2, H3.
Qed.

(** C1.  The classifier returns the property-list error on a response
    that is not a dict or has no string under Status, success on Status
    "Acknowledged" and the failed request on every Status string other
    than "Acknowledged" and "Error".  On Status "Error" it returns the
    property-list error where the error chain is within reach, and only
    there: the value of Status is freed at line 84 while it is still a
    child of the response, so on a response with an entry behind Status
    and no ErrorChain in front of it the lookup of line 90 stops at a
    child that is not a key, and the function does not return. *)
Theorem mcinstall_check_result_error_faults (status_code : Z) :
  (forall response,
     plist_get_node_type response <> PLIST_DICT ->
     exists left,
       Mem.mcinstall_check_result response status_code
       = Returns (MCINSTALL_E_PLIST_ERROR, status_code, [], left)) /\
  (forall entries,
     plist_get_node_type (dict_lookup entries "Status") <> PLIST_STRING ->
     exists left,
       Mem.mcinstall_check_result (Some (PDict entries)) status_code
       = Returns (MCINSTALL_E_PLIST_ERROR, status_code, [], left)) /\
  (forall entries,
     dict_lookup entries "Status" = Some (PString "Acknowledged") ->
     exists left,
       Mem.mcinstall_check_result (Some (PDict entries)) status_code
       = Returns (MCINSTALL_E_SUCCESS, status_code, [], left)) /\
  (forall entries status,
     dict_lookup entries "Status" = Some (PString status) ->
     status <> "Acknowledged" -> status <> "Error" ->
     exists left,
       Mem.mcinstall_check_result (Some (PDict entries)) status_code
       = Returns (MCINSTALL_E_REQUEST_FAILED, status_code, [], left)) /\
  (forall entries,
     dict_lookup entries "Status" = Some (PString "Error") ->
     chain_in_reach (Some (PDict entries)) = true ->
     exists out left,
       Mem.mcinstall_check_result (Some (PDict entries)) status_code
       = Returns (MCINSTALL_E_PLIST_ERROR, status_code, out, left)) /\
  (forall front key item back,
     dict_lookup front "Status" = None ->
     dict_lookup front "ErrorChain" = None ->
     plist_get_node_type (Some item) <> PLIST_KEY ->
     Mem.mcinstall_check_result
       (Some (PDict (front ++ ("Status", PString "Error") :: (key, item) :: back)))
       status_code
     = Faults).
Proof.
  refine (conj _ (conj _ (conj _ (conj _ (conj _ _))))).
  - intros response Hty. unfold Mem.mcinstall_check_result.
    destruct (plist_type_eqb (plist_get_node_type response) PLIST_DICT) eqn:Heq.
    + apply plist_type_eqb_eq in Heq. contradiction.
    + eexists. reflexivity.
  - intros entries Hty. rewrite mem_check_result_dict. cbv zeta.
    destruct (dict_lookup entries "Status") as [[]|]; try (eexists; reflexivity).
    now contradiction Hty.
  - intros entries Hstatus. rewrite mem_check_result_dict. cbv zeta. rewrite Hstatus.
    eexists. reflexivity.
  - intros entries status Hstatus Hack Herr. rewrite mem_check_result_dict. cbv zeta.
    rewrite Hstatus. apply String.eqb_neq in Hack, Herr. rewrite Hack, Herr.
    eexists. reflexivity.
  - intros entries Hstatus Hreach.
    destruct (mem_check_result_in_reach _ status_code Hreach) as (left & Hrun).
    rewrite Hrun. unfold mcinstall_check_result.
    cbn [plist_get_node_type plist_type_eqb negb plist_dict_get_item].
    rewrite Hstatus. cbn [String.eqb Ascii.eqb Bool.eqb].
    destruct (dict_lookup entries "ErrorChain") as [[]|]; do 2 eexists; reflexivity.
  - intros front key item back Hfront Hchain Hitem.
    rewrite mem_check_result_dict. cbv zeta.
    destruct (dict_lookup_at front "Status" (PString "Error") ((key, item) :: back) Hfront)
      as (-> & -> & ->).
    cbn [String.eqb Ascii.eqb Bool.eqb].
    rewrite children_get_item_behind_status by reflexivity.
    rewrite Hchain. destruct item; try reflexivity. now contradiction Hitem.
Qed.

(** C1 on the response that the specification gives for a failure:
    Status "Error" followed by an error chain. *)
Lemma mcinstall_check_result_error_faults_witness :
  Mem.mcinstall_check_result
    (Some (PDict [("Status", PString "Error");
                  ("ErrorChain", PArray [PDict [("LocalizedDescription", PString "x")]])]))
    0
  = Faults.
Proof.
  refine (proj2 (proj2 (proj2 (proj2 (proj2 (mcinstall_check_result_error_faults 0)))))
            [] "ErrorChain" (PArray [PDict [("LocalizedDescription", PString "x")]]) []
            _ _ _).
  - reflexivity.
  - reflexivity.
  - cbn. discriminate.
Defined.

(** ** Running an operation *)

(** Unfolds an operation down to the answers of the device. *)
Ltac unfold_op :=
  cbv beta iota zeta delta
    [mcinstall_install mcinstall_get_profile_list mcinstall_remove connected
     property_list_service_send_xml_plist property_list_service_receive_plist
     parent last_error set_last_error plist_get_node_type plist_type_eqb negb
     plist_new_dict plist_new_string plist_new_uint plist_new_data
     plist_dict_set_item dict_store String.eqb Ascii.eqb Bool.eqb fst snd
     install_request list_request remove_request profile_descriptor
     unknown_status mcinstall_error_code];
  cbn [calls log_call];
  rewrite ?plist_copy_same.

(** Case analysis on what the device answers to the send and to the
    receive, and on the classification of the response. *)
Ltac device_cases :=
  repeat match goal with
    | |- context [send_reply ?d ?l ?c ?r] =>
        let E := fresh "Hsend" in
        destruct (send_reply d l c r) eqn:E; cbn [mcinstall_error mcinstall_error_eqb
          mcinstall_error_code Z.eqb negb Pos.eqb]
    | |- context [receive_reply ?d ?l ?c] =>
        let E := fresh "Hrecv" in
        destruct (receive_reply d l c) as [[] [?|]] eqn:E;
        cbn [mcinstall_error mcinstall_error_eqb mcinstall_error_code Z.eqb negb Pos.eqb]
    | |- context [mcinstall_check_result ?r ?s] =>
        let E := fresh "Hres" in
        let H := fresh "Hstatus" in
        pose proof (mcinstall_check_result_status r s) as H;
        destruct (mcinstall_check_result r s) as [[[] ?] ?] eqn:E;
        cbn [fst snd] in H; subst;
        cbn [mcinstall_error mcinstall_error_eqb mcinstall_error_code Z.eqb negb Pos.eqb]
    end.

(** Whatever the device does, a call of [mcinstall_install] that passes
    the argument check leaves the unknown sentinel in the client. *)
Lemma mcinstall_install_status dev chan status bytes w :
  snd (fst (mcinstall_install dev (connected chan status) (Some (PData bytes)) w))
  = connected chan unknown_status.
Proof. unfold_op. device_cases; reflexivity. Qed.

Lemma mcinstall_get_profile_list_status dev chan status slot w :
  snd (fst (fst (mcinstall_get_profile_list dev (connected chan status) (Some slot) w)))
  = connected chan unknown_status.
Proof. unfold_op. device_cases; reflexivity. Qed.

Lemma mcinstall_remove_status dev to_bin chan status identifier uuid version w :
  version <> 0 ->
  snd (fst (mcinstall_remove dev to_bin (connected chan status)
              (Some identifier) (Some uuid) version w))
  = connected chan unknown_status.
Proof.
  intros Hv. apply Z.eqb_neq in Hv. unfold_op. rewrite Hv.
  device_cases; reflexivity.
Qed.

(** ** The status code *)

(** C2.  The status code after a completed round trip does not follow
    the classification: an install that is acknowledged (result 0), one
    that the device answers with Status "Error" (result -2) and one it
    answers with an unknown Status (result -4) all leave -256 in the
    client, the value an install whose send failed leaves as well; so
    do an acknowledged listing and a removal answered with an unknown
    Status. *)
Theorem mcinstall_status_code_ignores_classification :
  let status_reply reply := Some (PDict [("Status", PString reply)]) in
  let install reply :=
    mcinstall_install (answering (status_reply reply))
      (Some client0) (Some (PData [x01])) world0 in
  let result reply := fst (fst (install reply)) in
  let status reply := mcinstall_get_status_code (snd (fst (install reply))) in
  let failed :=
    mcinstall_install (refusing PROPERTY_LIST_SERVICE_E_MUX_ERROR)
      (Some client0) (Some (PData [x01])) world0 in
  let listed :=
    mcinstall_get_profile_list (answering (Some no_profiles))
      (Some client0) (Some None) world0 in
  let removed :=
    mcinstall_remove (answering (status_reply "Pending")) tlv_encode
      (Some client0) (Some "com.example.wifi") (Some "6A1F-22C0") 1 world0 in
  (result "Acknowledged" = MCINSTALL_E_SUCCESS /\ status "Acknowledged" = -256) /\
  (result "Error" = MCINSTALL_E_PLIST_ERROR /\ status "Error" = -256) /\
  (result "Pending" = MCINSTALL_E_REQUEST_FAILED /\ status "Pending" = -256) /\
  (fst (fst failed) = MCINSTALL_E_CONN_FAILED /\
   mcinstall_get_status_code (snd (fst failed)) = -256) /\
  (fst (fst (fst listed)) = MCINSTALL_E_SUCCESS /\
   mcinstall_get_status_code (snd (fst (fst listed))) = -256) /\
  (fst (fst removed) = MCINSTALL_E_REQUEST_FAILED /\
   mcinstall_get_status_code (snd (fst removed)) = -256).
Proof. cbv zeta. repeat split; reflexivity. Qed.

(** ** Argument checks *)

(** C4.  [mcinstall_remove] returns the invalid-argument error and
    leaves the client and the world, hence the log of channel calls, as
    they were when the client is null or has no channel, when the
    identifier or the uuid is null, or when the version is 0. *)
Theorem mcinstall_remove_invalid_arg dev to_bin client identifier uuid version w :
  client = None \/ (exists c, client = Some c /\ parent c = None) \/
  identifier = None \/ uuid = None \/ version = 0 ->
  mcinstall_remove dev to_bin client identifier uuid version w
  = (MCINSTALL_E_INVALID_ARG, client, w).
Proof.
  intros [-> | [(c & -> & Hc) | [-> | [-> | ->]]]]; unfold mcinstall_remove.
  - reflexivity.
  - now rewrite Hc.
  - destruct client as [c|]; [|reflexivity]. now destruct (parent c).
  - destruct client as [c|]; [|reflexivity]. destruct (parent c); [|reflexivity].
    now destruct identifier.
  - destruct client as [c|]; [|reflexivity]. destruct (parent c); [|reflexivity].
    destruct identifier; [|reflexivity]. now destruct uuid.
Qed.

(** C4 at version 0 on a connected client. *)
Lemma mcinstall_remove_invalid_arg_witness :
  mcinstall_remove (answering (Some acknowledged)) (fun _ => []) (Some client0)
    (Some "com.example.profile") (Some "0000-1111") 0 world0
  = (MCINSTALL_E_INVALID_ARG, Some client0, world0).
Proof.
  apply (mcinstall_remove_invalid_arg (answering (Some acknowledged)) (fun _ => [])
           (Some client0) (Some "com.example.profile") (Some "0000-1111") 0 world0).
  right; right; right; right. reflexivity.
Defined.

(** ** Install *)

(** The channel calls of an install that passes the argument check. *)
Lemma mcinstall_install_calls dev chan status bytes w :
  calls (snd (mcinstall_install dev (connected chan status) (Some (PData bytes)) w)) =
    (calls w ++ Send chan (install_request (PData bytes)) ::
       match send_reply dev (calls w) chan (install_request (PData bytes)) with
       | PROPERTY_LIST_SERVICE_E_SUCCESS => [Receive chan]
       | _ => []
       end).
Proof.
  unfold_op. device_cases; cbn [calls log_call printf]; rewrite <- ?app_assoc; reflexivity.
Qed.

(** C5.  On a connected client and a binary-data profile,
    [mcinstall_install] adds to the log of the channel one send, of the
    dict with RequestType "InstallProfile" and the profile under
    Payload, followed by one receive when the send was accepted and by
    nothing otherwise: one request more than before, at most one
    response more. *)
Theorem mcinstall_install_request dev chan status bytes w :
  let request := install_request (PData bytes) in
  let w' := snd (mcinstall_install dev (connected chan status) (Some (PData bytes)) w) in
  calls w' =
    (calls w ++ Send chan request ::
       match send_reply dev (calls w) chan request with
       | PROPERTY_LIST_SERVICE_E_SUCCESS => [Receive chan]
       | _ => []
       end) /\
  count_calls is_send (calls w') = S (count_calls is_send (calls w)) /\
  (count_calls is_receive (calls w') <= S (count_calls is_receive (calls w)))%nat /\
  plist_dict_get_item (Some request) "RequestType" = Some (PString "InstallProfile") /\
  plist_dict_get_item (Some request) "Payload" = Some (PData bytes).
Proof.
  cbv zeta. rewrite mcinstall_install_calls, !count_calls_app.
  refine (conj eq_refl (conj _ (conj _ (conj eq_refl eq_refl)))).
  - destruct (send_reply _ _ _ _); cbn; lia.
  - destruct (send_reply _ _ _ _); cbn; lia.
Qed.

(** C6 fails: an empty payload is sent like any other and the install
    is acknowledged. *)
Lemma mcinstall_install_empty_payload_sent :
  let r := mcinstall_install (answering (Some acknowledged))
             (Some client0) (Some (PData [])) world0 in
  fst (fst r) <> MCINSTALL_E_INVALID_ARG /\
  fst (fst r) = MCINSTALL_E_SUCCESS /\
  calls (snd r) = [Send chan0 (install_request (PData [])); Receive chan0].
Proof. cbv zeta. split; [discriminate|split; reflexivity]. Qed.

(** C6, amended.  [mcinstall_install] returns the invalid-argument error
    and leaves the client and the world as they were when the client is
    null or has no channel or the profile is null or not a binary-data
    node; the length of the data is not looked at: on a connected client
    the request with an empty Payload is sent. *)
Theorem mcinstall_install_argument_check dev client profile w :
  (client = None \/ (exists c, client = Some c /\ parent c = None) \/
   plist_get_node_type profile <> PLIST_DATA ->
   mcinstall_install dev client profile w = (MCINSTALL_E_INVALID_ARG, client, w)) /\
  (forall chan status,
     client = connected chan status -> profile = Some (PData []) ->
     exists rest,
       calls (snd (mcinstall_install dev client profile w))
       = calls w ++ Send chan (install_request (PData [])) :: rest).
Proof.
  split.
  - intros [-> | [(c & -> & Hc) | Hty]]; unfold mcinstall_install.
    + reflexivity.
    + now rewrite Hc.
    + destruct client as [c|]; [|reflexivity]. destruct (parent c); [|reflexivity].
      destruct profile as [prof|]; [|reflexivity].
      destruct (plist_type_eqb _ _) eqn:E; [|reflexivity].
      apply plist_type_eqb_eq in E. contradiction.
  - intros chan status -> ->.
    rewrite mcinstall_install_calls. eexists. reflexivity.
Qed.

(** C6, amended, on a null profile, which is rejected, and on an empty
    payload, which is sent. *)
Lemma mcinstall_install_argument_check_witness :
  mcinstall_install (answering (Some acknowledged)) (Some client0) None world0
  = (MCINSTALL_E_INVALID_ARG, Some client0, world0) /\
  exists rest,
    calls (snd (mcinstall_install (answering (Some acknowledged))
                  (connected chan0 0) (Some (PData [])) world0))
    = calls world0 ++ Send chan0 (install_request (PData [])) :: rest.
Proof.
  split.
  - refine (proj1 (mcinstall_install_argument_check (answering (Some acknowledged))
                     (Some client0) None world0) _).
    right; right. cbn. discriminate.
  - refine (proj2 (mcinstall_install_argument_check (answering (Some acknowledged))
                     (connected chan0 0) (Some (PData [])) world0) chan0 0 _ _);
      reflexivity.
Defined.

(** ** Failures of the channel *)

(** C8.  Each of the three operations, on a connected client and valid
    arguments, returns the mapped error of a failed send or receive and
    has the unknown sentinel in the client then; the mapping sends the
    transport error of the service to the connection-failed error. *)
Theorem mcinstall_io_failure dev to_bin chan status w :
  (forall bytes,
     let r := mcinstall_install dev (connected chan status) (Some (PData bytes)) w in
     io_failure_propagated dev chan (install_request (PData bytes)) w
       (fst (fst r)) (snd (fst r)) (snd r)) /\
  (forall slot,
     let r := mcinstall_get_profile_list dev (connected chan status) (Some slot) w in
     io_failure_propagated dev chan list_request w
       (fst (fst (fst r))) (snd (fst (fst r))) (snd r)) /\
  (forall identifier uuid version,
     version <> 0 ->
     let r := mcinstall_remove dev to_bin (connected chan status)
                (Some identifier) (Some uuid) version w in
     io_failure_propagated dev chan
       (remove_request (to_bin (profile_descriptor identifier uuid version))) w
       (fst (fst r)) (snd (fst r)) (snd r)) /\
  mcinstall_error PROPERTY_LIST_SERVICE_E_MUX_ERROR = MCINSTALL_E_CONN_FAILED.
Proof.
  refine (conj _ (conj _ (conj _ eq_refl))).
  - intros bytes. cbv zeta. unfold io_failure_propagated. unfold_op.
    split; [intros Hs | intros Hs Hr; rewrite Hs in *].
    + device_cases; try contradiction; cbn [calls log_call]; repeat split; reflexivity.
    + device_cases; cbn [fst] in Hr; try contradiction;
        cbn [calls log_call]; rewrite <- ?app_assoc; repeat split; reflexivity.
  - intros slot. cbv zeta. unfold io_failure_propagated. unfold_op.
    split; [intros Hs | intros Hs Hr; rewrite Hs in *].
    + device_cases; try contradiction; cbn [calls log_call printf];
        repeat split; reflexivity.
    + device_cases; cbn [fst] in Hr; try contradiction;
        cbn [calls log_call printf]; rewrite <- ?app_assoc; repeat split; reflexivity.
  - intros identifier uuid version Hv. apply Z.eqb_neq in Hv.
    cbv zeta. unfold io_failure_propagated. unfold_op. rewrite Hv.
    split; [intros Hs | intros Hs Hr; rewrite Hs in *].
    + device_cases; try contradiction; cbn [calls log_call]; repeat split; reflexivity.
    + device_cases; cbn [fst] in Hr; try contradiction;
        cbn [calls log_call]; rewrite <- ?app_assoc; repeat split; reflexivity.
Qed.

(** C8 on an install whose send fails in the transport, and on a
    listing whose receive does. *)
Lemma mcinstall_io_failure_witness :
  (let r := mcinstall_install (refusing PROPERTY_LIST_SERVICE_E_MUX_ERROR)
              (connected chan0 0) (Some (PData [x01])) world0 in
   fst (fst r) = MCINSTALL_E_CONN_FAILED /\
   snd (fst r) = connected chan0 (-256) /\
   calls (snd r) = [Send chan0 (install_request (PData [x01]))]) /\
  (let r := mcinstall_get_profile_list (silent PROPERTY_LIST_SERVICE_E_MUX_ERROR)
              (connected chan0 0) (Some None) world0 in
   fst (fst (fst r)) = MCINSTALL_E_CONN_FAILED /\
   snd (fst (fst r)) = connected chan0 (-256) /\
   calls (snd r) = [Send chan0 list_request; Receive chan0]).
Proof.
  split.
  - refine (proj1 (proj1 (mcinstall_io_failure
                            (refusing PROPERTY_LIST_SERVICE_E_MUX_ERROR) (fun _ => [])
                            chan0 0 world0) [x01]) _).
    discriminate.
  - refine (proj2 (proj1 (proj2 (mcinstall_io_failure
                                   (silent PROPERTY_LIST_SERVICE_E_MUX_ERROR) (fun _ => [])
                                   chan0 0 world0)) None) _ _).
    + reflexivity.
    + discriminate.
Defined.

(** ** Listing *)

(** Unfolds an operation of [Mem] down to the answers of the device and
    to the classifier. *)
Ltac unfold_mem :=
  cbv beta iota zeta delta
    [Mem.mcinstall_install Mem.mcinstall_get_profile_list Mem.mcinstall_remove connected
     property_list_service_send_xml_plist property_list_service_receive_plist
     parent last_error set_last_error plist_get_node_type plist_type_eqb negb
     plist_new_dict plist_new_string plist_new_uint plist_new_data
     plist_dict_set_item dict_store String.eqb Ascii.eqb Bool.eqb fst snd
     install_request list_request remove_request profile_descriptor
     unknown_status mcinstall_error_code];
  cbn [calls log_call];
  rewrite ?plist_copy_same.

Lemma map_plist_copy_same (nodes : list plist) : map plist_copy nodes = nodes.
Proof.
  induction nodes as [|n nodes IH]; cbn; [reflexivity|].
  now rewrite plist_copy_same, IH.
Qed.

(** The listing that a device acknowledges, with the dict that line 218
    stores. *)
Lemma mem_get_profile_list_acknowledged dev chan status slot w entries :
  send_reply dev (calls w) chan list_request = PROPERTY_LIST_SERVICE_E_SUCCESS ->
  receive_reply dev (calls w ++ [Send chan list_request]) chan
  = (PROPERTY_LIST_SERVICE_E_SUCCESS, Some (PDict entries)) ->
  dict_lookup entries "Status" = Some (PString "Acknowledged") ->
  Mem.mcinstall_get_profile_list dev (connected chan status) (Some slot) w
  = Returns (MCINSTALL_E_SUCCESS, connected chan unknown_status,
             Some (Some (Unpaired (dict_children (before_key entries "Status")
                                   ++ PKey "Status"
                                   :: dict_children (after_key entries "Status")))),
             {| calls := calls w ++ [Send chan list_request; Receive chan];
                stdout := stdout w |}).
Proof.
  intros Hs Hr Hstatus. unfold list_request in Hs, Hr. unfold_mem.
  rewrite Hs. cbn. rewrite Hr. cbn -[Mem.mcinstall_check_result].
  rewrite (mem_check_result_acknowledged entries (-256) Hstatus).
  cbn. rewrite map_plist_copy_same. unfold log_call, printf. cbn [calls stdout].
  now rewrite <- app_assoc, app_nil_r.
Qed.

(** C7.  When the device accepts the listing request and acknowledges
    it, [mcinstall_get_profile_list] returns success, also for a device
    without profiles.  What it stores through the output pointer is not
    a copy of the response as it came, though: the classifier has freed
    the value of Status (line 84) before line 218 copies the dict, so
    the copy has one child less than the response, a Status key without
    value, and a lookup of Status in it does not give the string
    "Acknowledged". *)
Theorem mcinstall_get_profile_list_stores_freed dev chan status slot w entries :
  send_reply dev (calls w) chan list_request = PROPERTY_LIST_SERVICE_E_SUCCESS ->
  receive_reply dev (calls w ++ [Send chan list_request]) chan
  = (PROPERTY_LIST_SERVICE_E_SUCCESS, Some (PDict entries)) ->
  dict_lookup entries "Status" = Some (PString "Acknowledged") ->
  let stored :=
    dict_children (before_key entries "Status")
    ++ PKey "Status" :: dict_children (after_key entries "Status") in
  Mem.mcinstall_get_profile_list dev (connected chan status) (Some slot) w
  = Returns (MCINSTALL_E_SUCCESS, connected chan unknown_status,
             Some (Some (Unpaired stored)),
             {| calls := calls w ++ [Send chan list_request; Receive chan];
                stdout := stdout w |}) /\
  S (List.length stored) = List.length (dict_children entries) /\
  stored <> dict_children entries /\
  node_dict_get_item (Some (Unpaired stored)) "Status"
  <> Returns (Some (PString "Acknowledged")).
Proof.
  intros Hs Hr Hstatus stored.
  assert (Hlen : S (List.length stored) = List.length (dict_children entries)).
  { destruct (dict_lookup_split entries "Status" _ Hstatus) as [Hsplit _].
    subst stored. rewrite Hsplit at 3.
    rewrite dict_children_app, !length_app.
    change (dict_children (("Status", PString "Acknowledged")
                           :: after_key entries "Status"))
      with (PKey "Status" :: PString "Acknowledged"
            :: dict_children (after_key entries "Status")).
    cbn [List.length]. lia. }
  split; [now apply mem_get_profile_list_acknowledged|].
  split; [exact Hlen|]. split.
  - intros Heq. rewrite Heq in Hlen. lia.
  - unfold node_dict_get_item. cbn [node_children]. subst stored.
    rewrite children_get_item_app.
    destruct (dict_lookup_split entries "Status" _ Hstatus) as [_ ->].
    cbn [children_get_item String.eqb Ascii.eqb Bool.eqb].
    destruct (after_key entries "Status") as [|[k v] back]; cbn; discriminate.
Qed.

(** C7 on a device without profiles: success, and a dict whose Status
    key has lost its value is what the caller gets. *)
Lemma mcinstall_get_profile_list_stores_freed_witness :
  let stored :=
    [PKey "OrderedIdentifiers"; PArray []; PKey "ProfileMetadata"; PDict [];
     PKey "Status"] in
  Mem.mcinstall_get_profile_list (answering (Some no_profiles)) (connected chan0 0)
    (Some None) world0
  = Returns (MCINSTALL_E_SUCCESS, connected chan0 unknown_status,
             Some (Some (Unpaired stored)),
             {| calls := calls world0 ++ [Send chan0 list_request; Receive chan0];
                stdout := stdout world0 |}) /\
  S (List.length stored)
  = List.length (dict_children [("OrderedIdentifiers", PArray []);
                                ("ProfileMetadata", PDict []);
                                ("Status", PString "Acknowledged")]) /\
  stored <> dict_children [("OrderedIdentifiers", PArray []);
                           ("ProfileMetadata", PDict []);
                           ("Status", PString "Acknowledged")] /\
  node_dict_get_item (Some (Unpaired stored)) "Status"
  <> Returns (Some (PString "Acknowledged")).
Proof.
  apply (mcinstall_get_profile_list_stores_freed (answering (Some no_profiles))
           chan0 0 None world0
           [("OrderedIdentifiers", PArray []); ("ProfileMetadata", PDict []);
            ("Status", PString "Acknowledged")]); reflexivity.
Defined.

Example mcinstall_get_profile_list_send_refused :
  mcinstall_get_profile_list (refusing PROPERTY_LIST_SERVICE_E_MUX_ERROR)
    (connected chan0 0) (Some None) world0
  = (MCINSTALL_E_CONN_FAILED, connected chan0 (-256), Some None,
     {| calls := [Send chan0 list_request];
        stdout := ["could not send plist, error -3"] |}).
Proof. reflexivity. Qed.

(** C10.  Whenever [mcinstall_get_profile_list] returns something else
    than success, what the output pointer points to is what it pointed
    to before the call. *)
Theorem mcinstall_get_profile_list_frame dev client profiles w :
  let r := mcinstall_get_profile_list dev client profiles w in
  fst (fst (fst r)) <> MCINSTALL_E_SUCCESS -> snd (fst r) = profiles.
Proof.
  cbv zeta. destruct client as [[[chan|] status]|]; try reflexivity.
  destruct profiles as [slot|]; [|reflexivity].
  unfold_op. device_cases; cbn [fst snd]; intros H; try reflexivity.
  now contradiction H.
Qed.

(** C10 on a device that answers Status "Error": the slot keeps the
    node it held. *)
Lemma mcinstall_get_profile_list_frame_witness :
  snd (fst (mcinstall_get_profile_list
              (answering (Some (PDict [("Status", PString "Error")])))
              (Some client0) (Some (Some (PString "old"))) world0))
  = Some (Some (PString "old")).
Proof.
  apply (mcinstall_get_profile_list_frame
           (answering (Some (PDict [("Status", PString "Error")])))
           (Some client0) (Some (Some (PString "old"))) world0).
  cbn. discriminate.
Defined.

(** ** Closing the client *)

Lemma mcinstall_client_free_calls dev c w :
  mcinstall_client_free dev (Some c) w
  = (MCINSTALL_E_SUCCESS,
     {| calls := calls w ++ release_calls c; stdout := stdout w |}).
Proof.
  unfold mcinstall_client_free, release_calls, property_list_service_client_free.
  destruct w as [l out]. destruct (parent c) as [chan|]; cbn.
  - destruct (service_parent chan); cbn; [reflexivity|]. now rewrite app_nil_r.
  - now rewrite app_nil_r.
Qed.

Lemma release_calls_once c : (count_calls is_release (release_calls c) <= 1)%nat.
Proof.
  unfold release_calls. destruct (parent c) as [chan|]; [|cbn; lia].
  destruct (service_parent chan); cbn; lia.
Qed.

(** The three operations never release the channel. *)
Lemma mcinstall_install_no_release dev client profile w :
  count_calls is_release (calls (snd (mcinstall_install dev client profile w)))
  = count_calls is_release (calls w).
Proof.
  destruct client as [[[chan|] status]|]; try reflexivity.
  destruct profile as [[]|]; try reflexivity.
  unfold_op. device_cases; cbn [snd calls printf log_call];
    rewrite ?count_calls_app; cbn; lia.
Qed.

Lemma mcinstall_get_profile_list_no_release dev client profiles w :
  count_calls is_release (calls (snd (mcinstall_get_profile_list dev client profiles w)))
  = count_calls is_release (calls w).
Proof.
  destruct client as [[[chan|] status]|]; try reflexivity.
  destruct profiles as [slot|]; try reflexivity.
  unfold_op. device_cases; cbn [snd calls printf log_call];
    rewrite ?count_calls_app; cbn; lia.
Qed.

Lemma mcinstall_remove_no_release dev to_bin client identifier uuid version w :
  count_calls is_release
    (calls (snd (mcinstall_remove dev to_bin client identifier uuid version w)))
  = count_calls is_release (calls w).
Proof.
  destruct client as [[[chan|] status]|]; try reflexivity.
  destruct identifier as [identifier|]; try reflexivity.
  destruct uuid as [uuid|]; try reflexivity.
  unfold_op. destruct (version =? 0); [reflexivity|].
  device_cases; cbn [snd calls printf log_call];
    rewrite ?count_calls_app; cbn; lia.
Qed.

Lemma mcinstall_client_free_count dev client w :
  (count_calls is_release (calls (snd (mcinstall_client_free dev client w)))
   <= S (count_calls is_release (calls w)))%nat.
Proof.
  destruct client as [c|]; [|cbn; lia].
  rewrite mcinstall_client_free_calls. cbn [snd calls].
  rewrite count_calls_app. pose proof (release_calls_once c). lia.
Qed.

(** C9.  [mcinstall_client_free] on a null client returns the
    invalid-argument error and touches nothing.  On any other client it
    returns success whatever the release of the channel reports, and
    calls that release once when the client has a channel with a
    connection and not at all otherwise; with an operation before it,
    failed or not, the log still gains at most one release. *)
Theorem mcinstall_client_free_releases_once dev to_bin :
  (forall w, mcinstall_client_free dev None w = (MCINSTALL_E_INVALID_ARG, w)) /\
  (forall c w,
     let r := mcinstall_client_free dev (Some c) w in
     fst r = MCINSTALL_E_SUCCESS /\
     calls (snd r) = calls w ++ release_calls c /\
     (count_calls is_release (release_calls c) <= 1)%nat) /\
  (forall client w profile profiles identifier uuid version,
     let released w' := count_calls is_release (calls w') in
     let after_install := mcinstall_install dev client profile w in
     let after_list := mcinstall_get_profile_list dev client profiles w in
     let after_remove := mcinstall_remove dev to_bin client identifier uuid version w in
     (released (snd (mcinstall_client_free dev (snd (fst after_install))
                       (snd after_install))) <= S (released w))%nat /\
     (released (snd (mcinstall_client_free dev (snd (fst (fst after_list)))
                       (snd after_list))) <= S (released w))%nat /\
     (released (snd (mcinstall_client_free dev (snd (fst after_remove))
                       (snd after_remove))) <= S (released w))%nat).
Proof.
  refine (conj (fun w => eq_refl) (conj _ _)).
  - intros c w. cbv zeta. rewrite mcinstall_client_free_calls.
    repeat split. apply release_calls_once.
  - intros client w profile profiles identifier uuid version. cbv zeta.
    refine (conj _ (conj _ _)).
    + eapply Nat.le_trans; [apply mcinstall_client_free_count|].
      now rewrite mcinstall_install_no_release.
    + eapply Nat.le_trans; [apply mcinstall_client_free_count|].
      now rewrite mcinstall_get_profile_list_no_release.
    + eapply Nat.le_trans; [apply mcinstall_client_free_count|].
      now rewrite mcinstall_remove_no_release.
Qed.

Example mcinstall_client_free_discards_error :
  mcinstall_client_free (silent PROPERTY_LIST_SERVICE_E_MUX_ERROR) (Some client0) world0
  = (MCINSTALL_E_SUCCESS, {| calls := [Release chan0]; stdout := [] |}).
Proof. reflexivity. Qed.

(** ** Removal *)

(** The channel calls of a removal that passes the argument check. *)
Lemma mcinstall_remove_calls dev to_bin chan status identifier uuid version w :
  version <> 0 ->
  let request := remove_request (to_bin (profile_descriptor identifier uuid version)) in
  calls (snd (mcinstall_remove dev to_bin (connected chan status)
                (Some identifier) (Some uuid) version w)) =
    calls w ++ Send chan request ::
      match send_reply dev (calls w) chan request with
      | PROPERTY_LIST_SERVICE_E_SUCCESS => [Receive chan]
      | _ => []
      end.
Proof.
  intros Hv. apply Z.eqb_neq in Hv. unfold_op. rewrite Hv.
  device_cases; cbn [calls log_call printf]; rewrite <- ?app_assoc; reflexivity.
Qed.

(** X21.  On a connected client, a removal with an identifier, a uuid
    and a version other than 0 adds to the log of the channel one send,
    followed by one receive when the send was accepted.  What it sends
    is the dict with RequestType "RemoveProfile" and, under
    ProfileIdentifier, the data that [plist_to_bin] made of the dict
    with PayloadType "Configuration", the identifier, the uuid and the
    version, in this order. *)
Theorem mcinstall_remove_request dev to_bin chan status identifier uuid version w :
  version <> 0 ->
  let descriptor :=
    PDict [("PayloadType", PString "Configuration");
           ("PayloadIdentifier", PString identifier);
           ("PayloadUUID", PString uuid);
           ("PayloadVersion", PUint version)] in
  let request :=
    PDict [("RequestType", PString "RemoveProfile");
           ("ProfileIdentifier", PData (to_bin descriptor))] in
  let w' := snd (mcinstall_remove dev to_bin (connected chan status)
                   (Some identifier) (Some uuid) version w) in
  calls w' =
    (calls w ++ Send chan request ::
       match send_reply dev (calls w) chan request with
       | PROPERTY_LIST_SERVICE_E_SUCCESS => [Receive chan]
       | _ => []
       end) /\
  count_calls is_send (calls w') = S (count_calls is_send (calls w)) /\
  (count_calls is_receive (calls w') <= S (count_calls is_receive (calls w)))%nat.
Proof.
  intros Hv. cbv zeta.
  rewrite (mcinstall_remove_calls dev to_bin chan status identifier uuid version w Hv).
  cbv zeta. unfold remove_request, profile_descriptor. rewrite !count_calls_app.
  refine (conj eq_refl (conj _ _)).
  - destruct (send_reply _ _ _ _); cbn; lia.
  - destruct (send_reply _ _ _ _); cbn; lia.
Qed.

(** X21 on a device that acknowledges the removal of version 1 of a
    profile, with the encoding of this file. *)
Lemma mcinstall_remove_request_witness :
  calls (snd (mcinstall_remove (answering (Some acknowledged)) tlv_encode
                (connected chan0 0) (Some "com.example.wifi") (Some "6A1F-22C0") 1
                world0))
  = [Send chan0
       (PDict [("RequestType", PString "RemoveProfile");
               ("ProfileIdentifier",
                PData (tlv_encode
                         (PDict [("PayloadType", PString "Configuration");
                                 ("PayloadIdentifier", PString "com.example.wifi");
                                 ("PayloadUUID", PString "6A1F-22C0");
                                 ("PayloadVersion", PUint 1)])))]);
     Receive chan0].
Proof.
  refine (proj1 (mcinstall_remove_request (answering (Some acknowledged)) tlv_encode
                   chan0 0 "com.example.wifi" "6A1F-22C0" 1 world0 _)).
  discriminate.
Defined.

Example mcinstall_remove_runs :
  mcinstall_remove (answering (Some acknowledged)) tlv_encode (connected chan0 0)
    (Some "a") (Some "b") 1 world0
  = (MCINSTALL_E_SUCCESS, connected chan0 (-256),
     {| calls :=
          [Send chan0
             (remove_request (tlv_encode (profile_descriptor "a" "b" 1)));
           Receive chan0];
        stdout := [] |}).
Proof. reflexivity. Qed.

(** * Further properties of mcinstall.c *)

(** ** The classifier *)

Lemma check_result_acknowledged_iff (response : plist_t) (status_code : Z) :
  fst (fst (mcinstall_check_result response status_code)) = MCINSTALL_E_SUCCESS <->
  plist_dict_get_item response "Status" = Some (PString "Acknowledged").
Proof.
  unfold mcinstall_check_result.
  destruct (plist_type_eqb (plist_get_node_type response) PLIST_DICT) eqn:Hty; cbn [negb].
  - destruct (plist_dict_get_item response "Status") as [[| | |status| | | | | |]|];
      cbn [fst]; try (split; intros H; discriminate H).
    destruct (String.eqb status "Acknowledged") eqn:Hack.
    + apply String.eqb_eq in Hack. subst status. split; reflexivity.
    + apply String.eqb_neq in Hack.
      split; [|intros [= Heq]; contradiction].
      destruct (String.eqb status "Error");
        [destruct (plist_dict_get_item response "ErrorChain") as [[]|]|];
        intros H; discriminate H.
  - assert (Hnone : plist_dict_get_item response "Status" = None).
    { destruct response as [[]|]; try reflexivity. discriminate Hty. }
    rewrite Hnone. split; intros H; discriminate H.
Qed.

(** X1.  The classifier returns success exactly on a dict response whose
    Status entry is the string "Acknowledged". *)
Theorem mcinstall_check_result_success_iff (response : plist_t) (status_code : Z) :
  fst (fst (mcinstall_check_result response status_code)) = MCINSTALL_E_SUCCESS <->
  plist_dict_get_item response "Status" = Some (PString "Acknowledged").
Proof. apply check_result_acknowledged_iff. Qed.

(** X2.  The classifier returns one of three results, leaves the integer
    behind [status_code] as it was, and prints only when the Status is
    "Error", in which case the result is the property-list error. *)
Theorem mcinstall_check_result_outcomes (response : plist_t) (status_code : Z) :
  let r := mcinstall_check_result response status_code in
  (fst (fst r) = MCINSTALL_E_SUCCESS \/ fst (fst r) = MCINSTALL_E_PLIST_ERROR \/
   fst (fst r) = MCINSTALL_E_REQUEST_FAILED) /\
  snd (fst r) = status_code /\
  (snd r <> [] ->
   fst (fst r) = MCINSTALL_E_PLIST_ERROR /\
   plist_dict_get_item response "Status" = Some (PString "Error")).
Proof.
  cbv zeta. unfold mcinstall_check_result.
  assert (Hquiet : forall (res : mcinstall_error_t) (status : plist_t),
             res = MCINSTALL_E_SUCCESS \/ res = MCINSTALL_E_PLIST_ERROR \/
             res = MCINSTALL_E_REQUEST_FAILED ->
             (res = MCINSTALL_E_SUCCESS \/ res = MCINSTALL_E_PLIST_ERROR \/
              res = MCINSTALL_E_REQUEST_FAILED) /\
             status_code = status_code /\
             (@nil string <> [] ->
              res = MCINSTALL_E_PLIST_ERROR /\ status = Some (PString "Error"))).
  { intros res status Hres. split; [exact Hres|split; [reflexivity|]].
    intros Hout. now contradiction Hout. }
  destruct (negb _); cbn [fst snd]; [apply Hquiet; auto|].
  destruct (plist_dict_get_item response "Status") as [[| | |status| | | | | |]|];
    cbn [fst snd]; try (apply Hquiet; now auto).
  destruct (String.eqb status "Acknowledged"); cbn [fst snd]; [apply Hquiet; auto|].
  destruct (String.eqb status "Error") eqn:Herr; cbn [fst snd]; [|apply Hquiet; auto].
  apply String.eqb_eq in Herr. subst status.
  destruct (plist_dict_get_item response "ErrorChain") as [[]|];
    cbn [fst snd]; (split; [auto|split; [reflexivity|intros _; split; reflexivity]]).
Qed.

(** The loop prints, from position [j] on, the line of every entry that
    carries a description. *)
Lemma print_error_chain_numbered (errors : list plist) :
  forall j : nat,
    print_error_chain (Z.of_nat j) errors
    = flat_map
        (fun je => match error_description (snd je) with
                   | Some d => [error_line (fst je) d]
                   | None => []
                   end)
        (combine (map Z.of_nat (seq j (List.length errors))) errors).
Proof.
  induction errors as [|error errors IH]; intros j; [reflexivity|].
  cbn [print_error_chain List.length seq map combine flat_map fst snd].
  replace (Z.of_nat j + 1) with (Z.of_nat (S j)) by lia.
  rewrite IH. f_equal.
  unfold print_error, error_description, error_line.
  destruct error as [| | | | |entries| | | |]; try reflexivity.
  destruct (plist_dict_get_item (Some (PDict entries)) "LocalizedDescription")
    as [[]|]; reflexivity.
Qed.

(** X3.  On a response whose Status is "Error" and whose ErrorChain, an
    array, stands in front of the Status entry, the classifier returns
    the property-list error and prints one line for every entry of the
    chain that has a string under LocalizedDescription, in the order of
    the chain, each with the position of its entry in the chain; entries
    without one are passed over. *)
Theorem mcinstall_check_result_prints
    (front back : list (string * plist)) (errors : list plist) (status_code : Z) :
  dict_lookup front "Status" = None ->
  dict_lookup front "ErrorChain" = Some (PArray errors) ->
  exists left,
    Mem.mcinstall_check_result
      (Some (PDict (front ++ ("Status", PString "Error") :: back))) status_code
    = Returns (MCINSTALL_E_PLIST_ERROR, status_code,
               flat_map
                 (fun je => match error_description (snd je) with
                            | Some d => [error_line (fst je) d]
                            | None => []
                            end)
                 (numbered errors),
               left).
Proof.
  intros Hfront Hchain. rewrite mem_check_result_dict. cbv zeta.
  destruct (dict_lookup_at front "Status" (PString "Error") back Hfront)
    as (-> & -> & ->).
  cbn [String.eqb Ascii.eqb Bool.eqb].
  rewrite children_get_item_behind_status by reflexivity.
  rewrite Hchain. cbn [bind].
  change (print_error_chain 0 errors) with (print_error_chain (Z.of_nat 0) errors).
  rewrite print_error_chain_numbered. eexists. reflexivity.
Qed.

(** X3 on a chain of three entries of which the second has no
    description: the lines are numbered 0 and 2. *)
Lemma mcinstall_check_result_prints_witness :
  exists left,
    Mem.mcinstall_check_result
      (Some (PDict ([("ErrorChain",
                      PArray [PDict [("LocalizedDescription", PString "a")];
                              PString "b";
                              PDict [("LocalizedDescription", PString "c")]])]
                    ++ ("Status", PString "Error") :: [("Code", PUint 4)]))) 0
    = Returns (MCINSTALL_E_PLIST_ERROR, 0,
               flat_map
                 (fun je => match error_description (snd je) with
                            | Some d => [error_line (fst je) d]
                            | None => []
                            end)
                 (numbered [PDict [("LocalizedDescription", PString "a")];
                            PString "b";
                            PDict [("LocalizedDescription", PString "c")]]),
               left).
Proof.
  apply (mcinstall_check_result_prints
           [("ErrorChain",
             PArray [PDict [("LocalizedDescription", PString "a")];
                     PString "b";
                     PDict [("LocalizedDescription", PString "c")]])]
           [("Code", PUint 4)]
           [PDict [("LocalizedDescription", PString "a")];
            PString "b";
            PDict [("LocalizedDescription", PString "c")]] 0);
    reflexivity.
Defined.

Example mcinstall_check_result_prints_lines :
  flat_map
    (fun je => match error_description (snd je) with
               | Some d => [error_line (fst je) d]
               | None => []
               end)
    (numbered [PDict [("LocalizedDescription", PString "a")];
               PString "b";
               PDict [("LocalizedDescription", PString "c")]])
  = [error_line 0 "a"; error_line 2 "c"].
Proof. reflexivity. Qed.

(** ** The three operations as one exchange *)

Lemma mcinstall_install_result dev chan status bytes w :
  fst (fst (mcinstall_install dev (connected chan status) (Some (PData bytes)) w))
  = exchange_result dev chan (install_request (PData bytes)) w.
Proof. unfold exchange_result. unfold_op. device_cases; reflexivity. Qed.

Lemma mcinstall_get_profile_list_result dev chan status slot w :
  fst (fst (fst (mcinstall_get_profile_list dev (connected chan status) (Some slot) w)))
  = exchange_result dev chan list_request w.
Proof. unfold exchange_result. unfold_op. device_cases; reflexivity. Qed.

Lemma mcinstall_remove_result dev to_bin chan status identifier uuid version w :
  version <> 0 ->
  fst (fst (mcinstall_remove dev to_bin (connected chan status)
              (Some identifier) (Some uuid) version w))
  = exchange_result dev chan
      (remove_request (to_bin (profile_descriptor identifier uuid version))) w.
Proof.
  intros Hv. apply Z.eqb_neq in Hv. unfold exchange_result. unfold_op. rewrite Hv.
  device_cases; reflexivity.
Qed.

Lemma exchange_result_success dev chan request w :
  exchange_result dev chan request w = MCINSTALL_E_SUCCESS <->
  acknowledges dev chan request w.
Proof.
  unfold exchange_result, acknowledges.
  destruct (send_reply dev (calls w) chan request);
    try (split; [intros H; discriminate H|intros [H _]; discriminate H]).
  destruct (receive_reply dev (calls w ++ [Send chan request]) chan) as [[] [response|]];
    try (split; [intros H; discriminate H|intros [_ (r & H & _)]; discriminate H]).
  rewrite check_result_acknowledged_iff. split.
  - intros H. split; [reflexivity|]. exists response. split; [reflexivity|exact H].
  - intros [_ (r & [= <-] & H)]. exact H.
Qed.

(** X4.  On a connected client and valid arguments, each of the three
    operations returns success exactly when the device accepts the
    request and answers it with a dict whose Status is "Acknowledged". *)
Theorem mcinstall_operations_success_iff dev to_bin chan status w :
  (forall bytes,
     fst (fst (mcinstall_install dev (connected chan status) (Some (PData bytes)) w))
     = MCINSTALL_E_SUCCESS <->
     acknowledges dev chan (install_request (PData bytes)) w) /\
  (forall slot,
     fst (fst (fst (mcinstall_get_profile_list dev (connected chan status) (Some slot) w)))
     = MCINSTALL_E_SUCCESS <->
     acknowledges dev chan list_request w) /\
  (forall identifier uuid version,
     version <> 0 ->
     fst (fst (mcinstall_remove dev to_bin (connected chan status)
                 (Some identifier) (Some uuid) version w))
     = MCINSTALL_E_SUCCESS <->
     acknowledges dev chan
       (remove_request (to_bin (profile_descriptor identifier uuid version))) w).
Proof.
  refine (conj _ (conj _ _)).
  - intros bytes. rewrite mcinstall_install_result. apply exchange_result_success.
  - intros slot. rewrite mcinstall_get_profile_list_result. apply exchange_result_success.
  - intros identifier uuid version Hv. rewrite mcinstall_remove_result by exact Hv.
    apply exchange_result_success.
Qed.

(** X4 on a removal that the device acknowledges. *)
Lemma mcinstall_operations_success_iff_witness :
  fst (fst (mcinstall_remove (answering (Some acknowledged)) tlv_encode
              (connected chan0 0) (Some "a") (Some "b") 7 world0))
  = MCINSTALL_E_SUCCESS.
Proof.
  refine (proj2 (proj2 (proj2 (mcinstall_operations_success_iff
                                 (answering (Some acknowledged)) tlv_encode
                                 chan0 0 world0))
                   "a" "b" 7 _) _).
  - discriminate.
  - split; [reflexivity|]. exists acknowledged. split; reflexivity.
Defined.

(** X5.  When the receive reports success but hands back no response,
    each of the three operations returns the unknown error after one
    send and one receive; the listing leaves its output pointer alone. *)
Theorem mcinstall_missing_response dev to_bin chan status w :
  let missing request :=
    send_reply dev (calls w) chan request = PROPERTY_LIST_SERVICE_E_SUCCESS /\
    receive_reply dev (calls w ++ [Send chan request]) chan
    = (PROPERTY_LIST_SERVICE_E_SUCCESS, None) in
  (forall bytes,
     missing (install_request (PData bytes)) ->
     mcinstall_install dev (connected chan status) (Some (PData bytes)) w
     = (MCINSTALL_E_UNKNOWN_ERROR, connected chan unknown_status,
        {| calls := calls w ++ [Send chan (install_request (PData bytes)); Receive chan];
           stdout := stdout w |})) /\
  (forall slot,
     missing list_request ->
     mcinstall_get_profile_list dev (connected chan status) (Some slot) w
     = (MCINSTALL_E_UNKNOWN_ERROR, connected chan unknown_status, Some slot,
        {| calls := calls w ++ [Send chan list_request; Receive chan];
           stdout := stdout w ++ ["could not get response plist"] |})) /\
  (forall identifier uuid version,
     version <> 0 ->
     let request :=
       remove_request (to_bin (profile_descriptor identifier uuid version)) in
     missing request ->
     mcinstall_remove dev to_bin (connected chan status)
       (Some identifier) (Some uuid) version w
     = (MCINSTALL_E_UNKNOWN_ERROR, connected chan unknown_status,
        {| calls := calls w ++ [Send chan request; Receive chan];
           stdout := stdout w |})).
Proof.
  cbv zeta. refine (conj _ (conj _ _)).
  - intros bytes [Hs Hr]. unfold install_request in Hs, Hr. unfold_op.
    rewrite Hs. cbn. rewrite Hr. cbn. unfold log_call, printf; cbn [calls stdout].
    now rewrite <- app_assoc.
  - intros slot [Hs Hr]. unfold list_request in Hs, Hr. unfold_op.
    rewrite Hs. cbn. rewrite Hr. cbn. unfold log_call, printf; cbn [calls stdout].
    now rewrite <- app_assoc.
  - intros identifier uuid version Hv [Hs Hr]. apply Z.eqb_neq in Hv.
    unfold remove_request, profile_descriptor in Hs, Hr. unfold_op.
    rewrite Hv, Hs. cbn. rewrite Hr. cbn. unfold log_call, printf; cbn [calls stdout].
    now rewrite <- app_assoc.
Qed.

(** X5 on a listing. *)
Lemma mcinstall_missing_response_witness :
  mcinstall_get_profile_list (answering None) (connected chan0 0)
    (Some (Some (PString "old"))) world0
  = (MCINSTALL_E_UNKNOWN_ERROR, connected chan0 unknown_status,
     Some (Some (PString "old")),
     {| calls := calls world0 ++ [Send chan0 list_request; Receive chan0];
        stdout := stdout world0 ++ ["could not get response plist"] |}).
Proof.
  refine (proj1 (proj2 (mcinstall_missing_response (answering None) tlv_encode
                          chan0 0 world0))
            (Some (PString "old")) _).
  split; reflexivity.
Defined.

(** ** What the operations do to the channel and to the client *)

Lemma exchange_on_none block : exchange_on None block -> block = [].
Proof. intros [H|(c & chan & request & H & _)]; [exact H|discriminate H]. Qed.

Lemma mcinstall_install_block dev client profile w :
  exists block,
    calls (snd (mcinstall_install dev client profile w)) = calls w ++ block /\
    exchange_on client block.
Proof.
  assert (Hnil : exists block, calls w = calls w ++ block /\ exchange_on client block).
  { exists []. split; [now rewrite app_nil_r|now left]. }
  destruct client as [[[chan|] status]|]; try exact Hnil.
  destruct profile as [[]|]; try exact Hnil.
  unfold_op. device_cases; cbn [snd calls printf log_call]; rewrite <- ?app_assoc;
    eexists; (split; [reflexivity|]); right;
    (eexists; exists chan; eexists; split; [reflexivity|split; [reflexivity|]]);
    first [left; reflexivity|right; reflexivity].
Qed.

Lemma mcinstall_get_profile_list_block dev client profiles w :
  exists block,
    calls (snd (mcinstall_get_profile_list dev client profiles w)) = calls w ++ block /\
    exchange_on client block.
Proof.
  assert (Hnil : exists block, calls w = calls w ++ block /\ exchange_on client block).
  { exists []. split; [now rewrite app_nil_r|now left]. }
  destruct client as [[[chan|] status]|]; try exact Hnil.
  destruct profiles as [slot|]; try exact Hnil.
  unfold_op. device_cases; cbn [snd calls printf log_call]; rewrite <- ?app_assoc;
    eexists; (split; [reflexivity|]); right;
    (eexists; exists chan; eexists; split; [reflexivity|split; [reflexivity|]]);
    first [left; reflexivity|right; reflexivity].
Qed.

Lemma mcinstall_remove_block dev to_bin client identifier uuid version w :
  exists block,
    calls (snd (mcinstall_remove dev to_bin client identifier uuid version w))
    = calls w ++ block /\
    exchange_on client block.
Proof.
  assert (Hnil : exists block, calls w = calls w ++ block /\ exchange_on client block).
  { exists []. split; [now rewrite app_nil_r|now left]. }
  destruct client as [[[chan|] status]|]; try exact Hnil.
  destruct identifier as [identifier|]; try exact Hnil.
  destruct uuid as [uuid|]; try exact Hnil.
  unfold_op. destruct (version =? 0); [exact Hnil|].
  device_cases; cbn [snd calls printf log_call]; rewrite <- ?app_assoc;
    eexists; (split; [reflexivity|]); right;
    (eexists; exists chan; eexists; split; [reflexivity|split; [reflexivity|]]);
    first [left; reflexivity|right; reflexivity].
Qed.

(** X6.  Whatever its arguments and whatever the device does, an
    operation adds to the log of channel calls nothing, or one send on
    the channel of its client, or that send followed by one receive on
    the same channel. *)
Theorem mcinstall_operations_exchange_once dev to_bin client w :
  (forall profile,
     exists block,
       calls (snd (mcinstall_install dev client profile w)) = calls w ++ block /\
       exchange_on client block) /\
  (forall profiles,
     exists block,
       calls (snd (mcinstall_get_profile_list dev client profiles w))
       = calls w ++ block /\
       exchange_on client block) /\
  (forall identifier uuid version,
     exists block,
       calls (snd (mcinstall_remove dev to_bin client identifier uuid version w))
       = calls w ++ block /\
       exchange_on client block).
Proof.
  refine (conj _ (conj _ _)); intros.
  - apply mcinstall_install_block.
  - apply mcinstall_get_profile_list_block.
  - apply mcinstall_remove_block.
Qed.

Lemma mcinstall_install_parent dev client profile w :
  option_map parent (snd (fst (mcinstall_install dev client profile w)))
  = option_map parent client.
Proof.
  destruct client as [[[chan|] status]|]; try reflexivity.
  destruct profile as [[]|]; try reflexivity.
  unfold_op. device_cases; reflexivity.
Qed.

Lemma mcinstall_get_profile_list_parent dev client profiles w :
  option_map parent (snd (fst (fst (mcinstall_get_profile_list dev client profiles w))))
  = option_map parent client.
Proof.
  destruct client as [[[chan|] status]|]; try reflexivity.
  destruct profiles as [slot|]; try reflexivity.
  unfold_op. device_cases; reflexivity.
Qed.

Lemma mcinstall_remove_parent dev to_bin client identifier uuid version w :
  option_map parent
    (snd (fst (mcinstall_remove dev to_bin client identifier uuid version w)))
  = option_map parent client.
Proof.
  destruct client as [[[chan|] status]|]; try reflexivity.
  destruct identifier as [identifier|]; try reflexivity.
  destruct uuid as [uuid|]; try reflexivity.
  unfold_op. destruct (version =? 0); [reflexivity|].
  device_cases; reflexivity.
Qed.

(** No operation changes which channel its client holds: a null
    client stays null and any other keeps its [parent], whatever the
    arguments and the outcome. *)
Theorem mcinstall_operations_keep_channel dev to_bin client w :
  (forall profile,
     option_map parent (snd (fst (mcinstall_install dev client profile w)))
     = option_map parent client) /\
  (forall profiles,
     option_map parent
       (snd (fst (fst (mcinstall_get_profile_list dev client profiles w))))
     = option_map parent client) /\
  (forall identifier uuid version,
     option_map parent
       (snd (fst (mcinstall_remove dev to_bin client identifier uuid version w)))
     = option_map parent client).
Proof.
  refine (conj _ (conj _ _)); intros.
  - apply mcinstall_install_parent.
  - apply mcinstall_get_profile_list_parent.
  - apply mcinstall_remove_parent.
Qed.

(** ** Sequences of operations *)

Lemma exchange_on_exchanges client block l :
  exchanges l -> exchange_on client block -> exchanges (l ++ block).
Proof.
  intros Hl [->|(c & chan & request & _ & _ & [->| ->])].
  - now rewrite app_nil_r.
  - now apply exchanges_send.
  - now apply exchanges_round_trip.
Qed.

Lemma exchange_on_counts client block :
  exchange_on client block ->
  (count_calls is_send block <= 1)%nat /\
  (count_calls is_receive block <= count_calls is_send block)%nat /\
  count_calls is_release block = 0%nat.
Proof.
  intros [->|(c & chan & request & _ & _ & [->| ->])]; cbn; lia.
Qed.

Lemma run_call_step dev to_bin client w c :
  exists block,
    calls (snd (run_call dev to_bin (client, w) c)) = calls w ++ block /\
    exchange_on client block /\
    option_map parent (fst (run_call dev to_bin (client, w) c))
    = option_map parent client.
Proof.
  destruct c as [profile|profiles|identifier uuid version]; cbn [run_call fst snd].
  - destruct (mcinstall_install_block dev client profile w) as (block & H1 & H2).
    exists block. auto using mcinstall_install_parent.
  - destruct (mcinstall_get_profile_list_block dev client profiles w)
      as (block & H1 & H2).
    exists block. auto using mcinstall_get_profile_list_parent.
  - destruct (mcinstall_remove_block dev to_bin client identifier uuid version w)
      as (block & H1 & H2).
    exists block. auto using mcinstall_remove_parent.
Qed.

Lemma run_calls_log dev to_bin cs :
  forall client w,
    exchanges (calls w) ->
    let final := run_calls dev to_bin (client, w) cs in
    exchanges (calls (snd final)) /\
    option_map parent (fst final) = option_map parent client /\
    (count_calls is_send (calls (snd final))
     <= count_calls is_send (calls w) + List.length cs)%nat /\
    (count_calls is_receive (calls (snd final)) + count_calls is_send (calls w)
     <= count_calls is_send (calls (snd final)) + count_calls is_receive (calls w))%nat /\
    count_calls is_release (calls (snd final)) = count_calls is_release (calls w).
Proof.
  induction cs as [|c cs IH]; intros client w Hw; cbv zeta.
  - cbn. repeat split; auto; lia.
  - unfold run_calls. cbn [fold_left].
    destruct (run_call_step dev to_bin client w c) as (block & Hcalls & Hblock & Hparent).
    destruct (run_call dev to_bin (client, w) c) as [client1 w1] eqn:Hstep.
    cbn [fst snd] in Hcalls, Hparent.
    pose proof (exchange_on_exchanges client block (calls w) Hw Hblock) as Hw1.
    rewrite <- Hcalls in Hw1.
    destruct (IH client1 w1 Hw1) as (H1 & H2 & H3 & H4 & H5).
    unfold run_calls in H1, H2, H3, H4, H5.
    destruct (exchange_on_counts client block Hblock) as (Hs & Hr & Hf).
    rewrite Hcalls in H3, H4, H5.
    repeat rewrite count_calls_app in H3.
    repeat rewrite count_calls_app in H4.
    repeat rewrite count_calls_app in H5.
    cbn [List.length].
    split; [exact H1|]. split; [congruence|]. split; [lia|]. split; lia.
Qed.

(** X7.  A sequence of operations on one client, of any length and with
    any arguments, keeps the log of the channel well paired: starting
    from a log in which every receive follows a send on the same
    channel, it ends in such a log, sends at most one request per call,
    receives no more responses than it sent requests, never releases the
    channel and leaves the client on the channel it had. *)
Theorem mcinstall_calls_keep_log dev to_bin client w cs :
  exchanges (calls w) ->
  let final := run_calls dev to_bin (client, w) cs in
  exchanges (calls (snd final)) /\
  option_map parent (fst final) = option_map parent client /\
  (count_calls is_send (calls (snd final))
   <= count_calls is_send (calls w) + List.length cs)%nat /\
  (count_calls is_receive (calls (snd final)) + count_calls is_send (calls w)
   <= count_calls is_send (calls (snd final)) + count_calls is_receive (calls w))%nat /\
  count_calls is_release (calls (snd final)) = count_calls is_release (calls w).
Proof. intros Hw. now apply run_calls_log. Qed.

(** X7 on a listing, a removal that the argument check stops and an
    install, on a device that acknowledges everything. *)
Lemma mcinstall_calls_keep_log_witness :
  let final :=
    run_calls (answering (Some no_profiles)) tlv_encode (connected chan0 0, world0)
      [CallGetProfileList (Some None);
       CallRemove (Some "a") None 1;
       CallInstall (Some (PData [x01]))] in
  exchanges (calls (snd final)) /\
  option_map parent (fst final) = option_map parent (connected chan0 0) /\
  (count_calls is_send (calls (snd final))
   <= count_calls is_send (calls world0) + 3)%nat /\
  (count_calls is_receive (calls (snd final)) + count_calls is_send (calls world0)
   <= count_calls is_send (calls (snd final)) + count_calls is_receive (calls world0))%nat /\
  count_calls is_release (calls (snd final)) = count_calls is_release (calls world0).
Proof.
  apply (mcinstall_calls_keep_log (answering (Some no_profiles)) tlv_encode
           (connected chan0 0) world0
           [CallGetProfileList (Some None);
            CallRemove (Some "a") None 1;
            CallInstall (Some (PData [x01]))]).
  exact exchanges_nil.
Defined.

(** X8.  After a call of an operation that passes the argument check,
    the status code of the client is -256 for every device: what the
    device answered and how the response was classified leave no trace
    in it. *)
Theorem mcinstall_status_code_after_operation dev to_bin chan status w :
  (forall bytes,
     mcinstall_get_status_code
       (snd (fst (mcinstall_install dev (connected chan status) (Some (PData bytes)) w)))
     = -256) /\
  (forall slot,
     mcinstall_get_status_code
       (snd (fst (fst (mcinstall_get_profile_list dev (connected chan status)
                         (Some slot) w))))
     = -256) /\
  (forall identifier uuid version,
     version <> 0 ->
     mcinstall_get_status_code
       (snd (fst (mcinstall_remove dev to_bin (connected chan status)
                    (Some identifier) (Some uuid) version w)))
     = -256).
Proof.
  refine (conj _ (conj _ _)); intros.
  - now rewrite mcinstall_install_status.
  - now rewrite mcinstall_get_profile_list_status.
  - now rewrite mcinstall_remove_status.
Qed.

(** X8 on a removal that the device answers with Status "Error". *)
Lemma mcinstall_status_code_after_operation_witness :
  mcinstall_get_status_code
    (snd (fst (mcinstall_remove (answering (Some (PDict [("Status", PString "Error")])))
                 tlv_encode (connected chan0 0) (Some "a") (Some "b") 7 world0)))
  = -256.
Proof.
  refine (proj2 (proj2 (mcinstall_status_code_after_operation
                          (answering (Some (PDict [("Status", PString "Error")])))
                          tlv_encode chan0 0 world0))
            "a" "b" 7 _).
  discriminate.
Defined.

(** ** The life of a client *)

Lemma run_calls_parent dev to_bin cs :
  forall client w,
    option_map parent (fst (run_calls dev to_bin (client, w) cs))
    = option_map parent client.
Proof.
  induction cs as [|call cs IH]; intros client w; [reflexivity|].
  unfold run_calls. cbn [fold_left].
  destruct (run_call_step dev to_bin client w call) as (block & _ & _ & Hp).
  destruct (run_call dev to_bin (client, w) call) as [c1 w1].
  cbn [fst] in Hp. rewrite <- Hp. apply IH.
Qed.

Lemma run_calls_state dev to_bin cs (state : mcinstall_client_t * world) :
  option_map parent (fst (run_calls dev to_bin state cs))
  = option_map parent (fst state) /\
  (exchanges (calls (snd state)) ->
   count_calls is_release (calls (snd (run_calls dev to_bin state cs)))
   = count_calls is_release (calls (snd state))).
Proof.
  destruct state as [client w]. split; [apply run_calls_parent|].
  intros Hw. now apply (run_calls_log dev to_bin cs client w Hw).
Qed.

Lemma free_after_calls dev to_bin handle status w cs :
  let chan := {| service_parent := Some handle |} in
  let used :=
    run_calls dev to_bin (Some {| parent := Some chan; last_error := status |}, w) cs in
  let closed := mcinstall_client_free dev (fst used) (snd used) in
  fst closed = MCINSTALL_E_SUCCESS /\
  calls (snd closed) = calls (snd used) ++ [Release chan] /\
  (exchanges (calls w) ->
   count_calls is_release (calls (snd closed)) = S (count_calls is_release (calls w))).
Proof.
  cbv zeta.
  match goal with
  | |- context [run_calls dev to_bin ?state cs] =>
      destruct (run_calls_state dev to_bin cs state) as [Hparent Hlog];
      revert Hparent Hlog;
      destruct (run_calls dev to_bin state cs) as [[c|] w1]
  end; intros Hparent Hlog; cbn in Hparent; cbn [fst snd] in Hlog |- *;
    [|discriminate Hparent].
  injection Hparent as Hparent.
  rewrite mcinstall_client_free_calls. unfold release_calls. rewrite Hparent.
  cbn [service_parent fst snd calls].
  split; [reflexivity|]. split; [reflexivity|].
  intros Hw. rewrite count_calls_app, (Hlog Hw). cbn. lia.
Qed.

(** X9.  A client made by [mcinstall_client_new] from a channel with a
    connection reports status 0 before any operation; after any sequence
    of operations on it, [mcinstall_client_free] returns success and
    releases that channel, as the last call on it and the only release
    since the client was made. *)
Theorem mcinstall_client_lifecycle dev to_bin handle slot w cs :
  let chan := {| service_parent := Some handle |} in
  let created :=
    mcinstall_client_new (PROPERTY_LIST_SERVICE_E_SUCCESS, Some chan) slot in
  let used := run_calls dev to_bin (snd created, w) cs in
  let closed := mcinstall_client_free dev (fst used) (snd used) in
  fst created = MCINSTALL_E_SUCCESS /\
  mcinstall_get_status_code (snd created) = 0 /\
  fst closed = MCINSTALL_E_SUCCESS /\
  calls (snd closed) = calls (snd used) ++ [Release chan] /\
  (exchanges (calls w) ->
   count_calls is_release (calls (snd closed)) = S (count_calls is_release (calls w))).
Proof.
  cbv zeta. split; [reflexivity|]. split; [reflexivity|].
  exact (free_after_calls dev to_bin handle 0 w cs).
Qed.

(** X9 on a client that lists and then installs before it is freed. *)
Lemma mcinstall_client_lifecycle_witness :
  let created :=
    mcinstall_client_new (PROPERTY_LIST_SERVICE_E_SUCCESS, Some chan0) None in
  let used :=
    run_calls (answering (Some no_profiles)) tlv_encode (snd created, world0)
      [CallGetProfileList (Some None); CallInstall (Some (PData [x01]))] in
  let closed :=
    mcinstall_client_free (answering (Some no_profiles)) (fst used) (snd used) in
  count_calls is_release (calls (snd closed)) = S (count_calls is_release (calls world0)).
Proof.
  refine (proj2 (proj2 (proj2 (proj2
            (mcinstall_client_lifecycle (answering (Some no_profiles)) tlv_encode
               1%nat None world0
               [CallGetProfileList (Some None); CallInstall (Some (PData [x01]))]))))
            _).
  exact exchanges_nil.
Defined.



(** * Properties of the tool *)

(** ** Reading the profile from a file *)

(** The loop keeps [cur] at the number of bytes in [buf], and what it
    adds to [buf] is what the reads it consumed delivered. *)
Lemma read_loop_consumes size reads :
  forall cur buf,
    cur = Z.of_nat (List.length buf) ->
    exists consumed rest,
      reads = consumed ++ rest /\
      snd (read_loop size cur buf reads) = buf ++ List.concat consumed /\
      fst (read_loop size cur buf reads)
      = Z.of_nat (List.length (snd (read_loop size cur buf reads))).
Proof.
  induction reads as [|chunk reads IH]; intros cur buf Hcur.
  - exists [], []. cbn. destruct (cur <? size); cbn; rewrite app_nil_r; auto.
  - cbn [read_loop]. destruct (cur <? size).
    + destruct (Z.of_nat (List.length chunk) <=? 0).
      * exists [], (chunk :: reads). cbn. rewrite app_nil_r. auto.
      * destruct (IH (cur + Z.of_nat (List.length chunk)) (buf ++ chunk))
          as (consumed & rest & Hreads & Hbuf & Hlen).
        { rewrite length_app. lia. }
        exists (chunk :: consumed), rest. cbn [List.concat].
        split; [now rewrite Hreads|]. split; [|exact Hlen].
        now rewrite Hbuf, app_assoc.
    + exists [], (chunk :: reads). cbn. rewrite app_nil_r. auto.
Qed.

(** X11.  When [profile_read_from_file] returns 0, the file was opened,
    its size as [ftell] reported it is below 16 MiB and could be
    allocated, the buffer handed back holds exactly that many bytes,
    they are what the reads delivered, in order, and nothing was written
    to standard error. *)
Theorem profile_read_from_file_success c path data0 size0 data size err :
  profile_read_from_file c path data0 size0 = (0, data, size, err) ->
  exists f bytes consumed rest,
    fopen c path = Some f /\
    data = Some bytes /\ err = [] /\
    file_reads f = consumed ++ rest /\ bytes = List.concat consumed /\
    Z.of_nat (List.length bytes) = file_size f /\ size = file_size f /\
    0 <= size < 16777216 /\ malloc_ok c size = true.
Proof.
  unfold profile_read_from_file.
  destruct (fopen c path) as [f|]; [|intros H; discriminate H].
  destruct (file_size f >=? 16777216) eqn:Hbig; [intros H; discriminate H|].
  destruct (malloc_ok c (file_size f)) eqn:Hmalloc; cbn [negb];
    [|intros H; discriminate H].
  destruct (read_loop_consumes (file_size f) (file_reads f) 0 [] eq_refl)
    as (consumed & rest & Hreads & Hbuf & Hlen).
  destruct (read_loop (file_size f) 0 [] (file_reads f)) as [cur buf].
  cbn [fst snd app] in Hbuf, Hlen.
  destruct (cur =? file_size f) eqn:Hcur; cbn [negb]; [|intros H; discriminate H].
  intros [= <- <- <-]. apply Z.eqb_eq in Hcur.
  assert (Hrange : 0 <= file_size f < 16777216) by lia.
  exists f, buf, consumed, rest.
  rewrite Z.mod_small by lia.
  repeat split; auto; lia.
Qed.

(** *** The loop on a buffer of the size of the file *)

(** Reads that deliver no more than what is left of the buffer are
    taken in as they come. *)
Lemma mem_read_loop_within size reads :
  forall cur buf,
    cur + Z.of_nat (List.length (List.concat reads)) <= size ->
    Mem.read_loop size cur buf reads = Returns (read_loop size cur buf reads).
Proof.
  induction reads as [|chunk reads IH]; intros cur buf Hfit; cbn [Mem.read_loop read_loop].
  - now destruct (cur <? size).
  - destruct (cur <? size); [|reflexivity].
    destruct (Z.of_nat (List.length chunk) <=? 0); [reflexivity|].
    cbn [List.concat] in Hfit. rewrite length_app in Hfit.
    assert ((size <? cur + Z.of_nat (List.length chunk)) = false) as ->
      by (apply Z.ltb_ge; lia).
    apply IH. lia.
Qed.

(** Whenever the loop comes back, it comes back with what the reads
    delivered. *)
Lemma mem_read_loop_returns size reads :
  forall cur buf r,
    Mem.read_loop size cur buf reads = Returns r -> read_loop size cur buf reads = r.
Proof.
  induction reads as [|chunk reads IH]; intros cur buf r; cbn [Mem.read_loop read_loop].
  - destruct (cur <? size); now intros [= <-].
  - destruct (cur <? size); [|now intros [= <-]].
    destruct (Z.of_nat (List.length chunk) <=? 0); [now intros [= <-]|].
    destruct (size <? cur + Z.of_nat (List.length chunk)); [intros H; discriminate H|].
    apply IH.
Qed.

(** The loop faults only on reads that deliver more than what is left
    of the buffer. *)
Lemma mem_read_loop_faults size reads :
  forall cur buf,
    Mem.read_loop size cur buf reads = Faults ->
    size < cur + Z.of_nat (List.length (List.concat reads)).
Proof.
  induction reads as [|chunk reads IH]; intros cur buf; cbn [Mem.read_loop].
  - destruct (cur <? size); intros H; discriminate H.
  - destruct (cur <? size); [|intros H; discriminate H].
    destruct (Z.of_nat (List.length chunk) <=? 0); [intros H; discriminate H|].
    cbn [List.concat]. rewrite length_app.
    destruct (size <? cur + Z.of_nat (List.length chunk)) eqn:Hover.
    + intros _. apply Z.ltb_lt in Hover. lia.
    + intros H. apply IH in H. lia.
Qed.

Lemma mem_profile_read_returns c path data0 size0 r :
  Mem.profile_read_from_file c path data0 size0 = Returns r ->
  profile_read_from_file c path data0 size0 = r.
Proof.
  unfold Mem.profile_read_from_file, profile_read_from_file.
  destruct (fopen c path) as [f|]; [|now intros [= <-]].
  destruct (file_size f >=? 16777216); [now intros [= <-]|].
  destruct (malloc_ok c (file_size f)); cbn [negb]; [|now intros [= <-]].
  destruct (Mem.read_loop (file_size f) 0 [] (file_reads f)) as [[cur buf]|] eqn:Hloop;
    cbn [bind]; [|intros H; discriminate H].
  rewrite (mem_read_loop_returns _ _ _ _ _ Hloop).
  destruct (cur =? file_size f); cbn [negb]; now intros [= <-].
Qed.

Lemma mem_profile_read_within c path data0 size0 :
  (forall f, fopen c path = Some f -> within_size f) ->
  Mem.profile_read_from_file c path data0 size0
  = Returns (profile_read_from_file c path data0 size0).
Proof.
  intros Hfit. unfold Mem.profile_read_from_file, profile_read_from_file.
  destruct (fopen c path) as [f|]; [|reflexivity].
  destruct (file_size f >=? 16777216); [reflexivity|].
  destruct (malloc_ok c (file_size f)); cbn [negb]; [|reflexivity].
  rewrite mem_read_loop_within by (apply (Hfit f eq_refl)).
  cbn [bind]. destruct (read_loop (file_size f) 0 [] (file_reads f)) as [cur buf].
  now destruct (cur =? file_size f).
Qed.

(** X12.  Whenever [profile_read_from_file] returns, it returns 0 or
    -1; when it returns -1, for whichever reason, the two output
    pointers still point to what they pointed to and one line was
    written to standard error.  It does not return only when the file
    was opened and its reads deliver more bytes in all than [ftell]
    reported: [fread] has then written past the buffer. *)
Theorem profile_read_from_file_failure c path data0 size0 :
  match Mem.profile_read_from_file c path data0 size0 with
  | Returns (rc, data, size, err) =>
      rc = 0 \/
      (rc = -1 /\ data = data0 /\ size = size0 /\ List.length err = 1%nat)
  | Faults => exists f, fopen c path = Some f /\ ~ within_size f
  end.
Proof.
  unfold Mem.profile_read_from_file.
  destruct (fopen c path) as [f|]; [|right; cbn; auto].
  destruct (file_size f >=? 16777216); [right; cbn; auto|].
  destruct (malloc_ok c (file_size f)); cbn [negb]; [|right; cbn; auto].
  destruct (Mem.read_loop (file_size f) 0 [] (file_reads f)) as [[cur buf]|] eqn:Hloop;
    cbn [bind].
  - destruct (cur =? file_size f); cbn [negb]; [left|right]; cbn; auto.
  - exists f. split; [reflexivity|]. apply mem_read_loop_faults in Hloop.
    unfold within_size. lia.
Qed.

Example profile_read_from_file_overrun :
  Mem.profile_read_from_file
    {| fopen := fun _ => Some {| file_size := 1; file_reads := [[x61; x62]] |};
       malloc_ok := fun _ => true |}
    "grown" None 0
  = Faults.
Proof. reflexivity. Qed.

Lemma firstn_512_length (bytes : list byte) :
  (List.length (firstn 512 bytes) + List.length (skipn 512 bytes)
   = List.length bytes)%nat.
Proof. rewrite <- (firstn_skipn 512 bytes) at 3. now rewrite length_app. Qed.

(** Read 512 bytes at a time, a file that holds [rest] after the [cur]
    bytes already in [buf] ends up in [buf] whole. *)
Lemma read_loop_chunks size fuel :
  forall rest cur buf,
    cur + Z.of_nat (List.length rest) = size ->
    (List.length rest <= fuel)%nat ->
    read_loop size cur buf (chunks_of fuel rest) = (size, buf ++ rest).
Proof.
  induction fuel as [|fuel IH]; intros rest cur buf Hsize Hfuel.
  - destruct rest; [|cbn in Hfuel; lia]. cbn in Hsize |- *.
    rewrite app_nil_r. replace cur with size by lia.
    now destruct (size <? size).
  - destruct rest as [|b rest].
    + cbn in Hsize |- *. rewrite app_nil_r. replace cur with size by lia.
      now destruct (size <? size).
    + remember (b :: rest) as bytes eqn:Hbytes.
      assert (Hpos : (0 < List.length (firstn 512 bytes))%nat).
      { subst bytes. cbn. lia. }
      pose proof (firstn_512_length bytes) as Hsplit.
      assert (chunks_of (S fuel) bytes
              = firstn 512 bytes :: chunks_of fuel (skipn 512 bytes)) as ->.
      { subst bytes. reflexivity. }
      cbn [read_loop].
      assert ((cur <? size) = true) as -> by (apply Z.ltb_lt; lia).
      assert ((Z.of_nat (List.length (firstn 512 bytes)) <=? 0) = false) as ->
        by (apply Z.leb_gt; lia).
      rewrite IH; [|lia|lia].
      now rewrite <- app_assoc, firstn_skipn.
Qed.

Lemma profile_read_regular c path content data0 size0 :
  fopen c path = Some (regular_file content) ->
  malloc_ok c (Z.of_nat (List.length content)) = true ->
  Z.of_nat (List.length content) < 16777216 ->
  profile_read_from_file c path data0 size0
  = (0, Some content, Z.of_nat (List.length content), []).
Proof.
  intros Hopen Hmalloc Hsmall. unfold profile_read_from_file.
  rewrite Hopen. cbn [file_size file_reads regular_file].
  assert ((Z.of_nat (List.length content) >=? 16777216) = false) as ->
    by (rewrite Z.geb_leb; apply Z.leb_gt; lia).
  rewrite Hmalloc. cbn [negb].
  rewrite (read_loop_chunks _ _ content 0 []); [|lia|lia].
  cbn [app]. rewrite Z.eqb_refl. cbn [negb].
  rewrite Z.mod_small by lia. reflexivity.
Qed.

(** X13.  A file that is opened, holds [content] and is read without
    incident comes back whole, with its length, when it is shorter than
    16 MiB (16777216 bytes) and the buffer can be allocated; from 16 MiB
    on it is refused. *)
Theorem profile_read_from_file_regular c path content data0 size0 :
  fopen c path = Some (regular_file content) ->
  malloc_ok c (Z.of_nat (List.length content)) = true ->
  (Z.of_nat (List.length content) < 16777216 ->
   profile_read_from_file c path data0 size0
   = (0, Some content, Z.of_nat (List.length content), [])) /\
  (16777216 <= Z.of_nat (List.length content) ->
   fst (fst (fst (profile_read_from_file c path data0 size0))) = -1).
Proof.
  intros Hopen Hmalloc. split.
  - now apply profile_read_regular.
  - intros Hbig. unfold profile_read_from_file. rewrite Hopen.
    cbn [file_size regular_file].
    assert ((Z.of_nat (List.length content) >=? 16777216) = true) as ->
      by (rewrite Z.geb_leb; apply Z.leb_le; lia).
    reflexivity.
Qed.

(** X11 on the file of [libc0]. *)
Lemma profile_read_from_file_success_witness :
  exists f bytes consumed rest,
    fopen libc0 "wifi.mobileconfig" = Some f /\
    Some profile0 = Some bytes /\ @nil string = [] /\
    file_reads f = consumed ++ rest /\ bytes = List.concat consumed /\
    Z.of_nat (List.length bytes) = file_size f /\ 5 = file_size f /\
    0 <= 5 < 16777216 /\ malloc_ok libc0 5 = true.
Proof.
  apply (profile_read_from_file_success libc0 "wifi.mobileconfig" None 0
           (Some profile0) 5 []).
  reflexivity.
Defined.

(** X13 on the file of [libc0]. *)
Lemma profile_read_from_file_regular_witness :
  profile_read_from_file libc0 "wifi.mobileconfig" None 0
  = (0, Some profile0, Z.of_nat (List.length profile0), []).
Proof.
  refine (proj1 (profile_read_from_file_regular libc0 "wifi.mobileconfig" profile0
                   None 0 _ _) _).
  - reflexivity.
  - reflexivity.
  - cbn. lia.
Defined.

(** * The two levels *)

(** Case analysis on what the device answers to the send and to the
    receive. *)
Ltac answer_cases :=
  repeat match goal with
    | |- context [send_reply ?d ?l ?c ?r] =>
        let E := fresh "Hsend" in
        destruct (send_reply d l c r) eqn:E; cbn [mcinstall_error mcinstall_error_eqb
          mcinstall_error_code Z.eqb negb Pos.eqb]
    | |- context [receive_reply ?d ?l ?c] =>
        let E := fresh "Hrecv" in
        destruct (receive_reply d l c) as [[] [?|]] eqn:E;
        cbn [mcinstall_error mcinstall_error_eqb mcinstall_error_code Z.eqb negb Pos.eqb]
    end.

(** The classifier of [Mem] on a response within reach, rewritten to
    the classifier on the entries. *)
Ltac classify_in_reach Hdev :=
  match goal with
  | Hrecv : receive_reply _ _ _ = (PROPERTY_LIST_SERVICE_E_SUCCESS, Some ?p)
    |- context [Mem.mcinstall_check_result (Some ?p) ?s] =>
      let left := fresh "left" in
      destruct (mem_check_result_in_reach (Some p) s (Hdev _ _ _ Hrecv)) as (left & ->);
      cbn [bind];
      destruct (mcinstall_check_result (Some p) s) as [[[] ?] ?];
      cbn [mcinstall_error mcinstall_error_eqb mcinstall_error_code Z.eqb negb Pos.eqb]
  end.

(** On a device whose answers have their error chain within reach, an
    operation of [Mem] returns, and returns what the operation on the
    entries gives. *)
Lemma mem_install_in_reach dev client profile w :
  answers_in_reach dev ->
  Mem.mcinstall_install dev client profile w
  = Returns (mcinstall_install dev client profile w).
Proof.
  intros Hdev.
  destruct client as [[[chan|] status]|]; try reflexivity.
  destruct profile as [[]|]; try reflexivity.
  unfold_op. unfold_mem. answer_cases; try reflexivity.
  classify_in_reach Hdev; reflexivity.
Qed.

Lemma mem_remove_in_reach dev to_bin client identifier uuid version w :
  answers_in_reach dev ->
  Mem.mcinstall_remove dev to_bin client identifier uuid version w
  = Returns (mcinstall_remove dev to_bin client identifier uuid version w).
Proof.
  intros Hdev.
  destruct client as [[[chan|] status]|]; try reflexivity.
  destruct identifier as [identifier|]; try reflexivity.
  destruct uuid as [uuid|]; try reflexivity.
  unfold_op. unfold_mem. destruct (version =? 0); [reflexivity|].
  answer_cases; try reflexivity.
  classify_in_reach Hdev; reflexivity.
Qed.

(** The listing stores a dict only when it returns success. *)
Lemma mem_get_profile_list_in_reach dev client slot w :
  answers_in_reach dev ->
  let v := mcinstall_get_profile_list dev client (Some None) w in
  exists stored,
    Mem.mcinstall_get_profile_list dev client (Some slot) w
    = Returns (fst (fst (fst v)), snd (fst (fst v)), stored, snd v) /\
    (fst (fst (fst v)) <> MCINSTALL_E_SUCCESS -> stored = Some slot).
Proof.
  intros Hdev. cbv zeta.
  destruct client as [[[chan|] status]|];
    try (eexists; split; [reflexivity|reflexivity]).
  unfold_op. unfold_mem. answer_cases;
    try (eexists; split; [reflexivity|reflexivity]).
  classify_in_reach Hdev; eexists; (split; [reflexivity|]); cbn [fst snd]; intros H;
    try reflexivity.
  now contradiction H.
Qed.

(** Whenever an operation of [Mem] returns, the operation on the
    entries gives its result, its client and its channel calls. *)
Ltac classify_returned :=
  match goal with
  | |- context [Mem.mcinstall_check_result (Some ?p) ?s] =>
      let E := fresh "Hmem" in
      destruct (Mem.mcinstall_check_result (Some p) s) as [[[[? ?] ?] ?]|] eqn:E;
      cbn [bind]; [|intros H; discriminate H];
      apply mem_check_result_returns in E;
      let Hst := fresh "Hstatus" in
      pose proof (mcinstall_check_result_status (Some p) s) as Hst;
      destruct (mcinstall_check_result (Some p) s) as [[? ?] ?];
      cbn [fst snd] in E, Hst; destruct E as [<- ->]; rewrite Hst
  end.

Lemma mem_install_returns dev client profile w res client' w' :
  Mem.mcinstall_install dev client profile w = Returns (res, client', w') ->
  let v := mcinstall_install dev client profile w in
  fst (fst v) = res /\ snd (fst v) = client' /\ calls (snd v) = calls w'.
Proof.
  cbv zeta.
  destruct client as [[[chan|] status]|];
    try (intros [= <- <- <-]; repeat split).
  destruct profile as [[]|]; try (intros [= <- <- <-]; repeat split).
  unfold_op. unfold_mem. answer_cases; try (intros [= <- <- <-]; repeat split).
  classify_returned. intros [= <- <- <-]. cbn [calls printf]. repeat split.
Qed.

Lemma mem_remove_returns dev to_bin client identifier uuid version w res client' w' :
  Mem.mcinstall_remove dev to_bin client identifier uuid version w
  = Returns (res, client', w') ->
  let v := mcinstall_remove dev to_bin client identifier uuid version w in
  fst (fst v) = res /\ snd (fst v) = client' /\ calls (snd v) = calls w'.
Proof.
  cbv zeta.
  destruct client as [[[chan|] status]|];
    try (intros [= <- <- <-]; repeat split).
  destruct identifier as [identifier|]; try (intros [= <- <- <-]; repeat split).
  destruct uuid as [uuid|]; try (intros [= <- <- <-]; repeat split).
  unfold_op. unfold_mem.
  destruct (version =? 0); [intros [= <- <- <-]; repeat split|].
  answer_cases; try (intros [= <- <- <-]; repeat split).
  classify_returned. intros [= <- <- <-]. cbn [calls printf]. repeat split.
Qed.

Lemma mem_get_profile_list_returns dev client slot w res client' stored w' :
  Mem.mcinstall_get_profile_list dev client (Some slot) w
  = Returns (res, client', stored, w') ->
  let v := mcinstall_get_profile_list dev client (Some None) w in
  fst (fst (fst v)) = res /\ snd (fst (fst v)) = client' /\ calls (snd v) = calls w'.
Proof.
  cbv zeta.
  destruct client as [[[chan|] status]|];
    try (intros [= <- <- <- <-]; repeat split).
  unfold_op. unfold_mem. answer_cases; try (intros [= <- <- <- <-]; repeat split).
  classify_returned.
  match goal with
  | |- context [mcinstall_error_eqb ?r MCINSTALL_E_SUCCESS] =>
      destruct (mcinstall_error_eqb r MCINSTALL_E_SUCCESS)
  end; intros [= <- <- <- <-]; cbn [calls printf]; repeat split.
Qed.

(** A device that acknowledges every request has its answers within
    reach. *)
Lemma cooperative_in_reach dev : cooperative dev -> answers_in_reach dev.
Proof.
  intros [_ Hrecv] l chan response Hr.
  destruct (Hrecv l chan) as (r & Hr' & Hstatus).
  rewrite Hr in Hr'. injection Hr' as <-.
  unfold chain_in_reach. destruct response; try reflexivity.
  cbn [plist_dict_get_item] in Hstatus. now rewrite Hstatus.
Qed.

(** ** The commands of the tool *)

Lemma check_result_acknowledged_run response status_code :
  plist_dict_get_item response "Status" = Some (PString "Acknowledged") ->
  mcinstall_check_result response status_code = (MCINSTALL_E_SUCCESS, status_code, []).
Proof.
  intros Hstatus. unfold mcinstall_check_result.
  assert (Hty : plist_type_eqb (plist_get_node_type response) PLIST_DICT = true).
  { destruct response as [[]|]; try discriminate Hstatus. reflexivity. }
  now rewrite Hty, Hstatus.
Qed.

(** A lookup in the dict that the listing stored finds what stands in
    front of the Status entry of the response. *)
Lemma node_dict_get_item_front front back key v :
  dict_lookup front key = Some v ->
  node_dict_get_item
    (Some (Unpaired (dict_children front ++ PKey "Status" :: dict_children back))) key
  = Returns (Some v).
Proof.
  intros H. unfold node_dict_get_item. cbn [node_children].
  rewrite children_get_item_app, H. reflexivity.
Qed.

(** The listing that the tool starts its last three commands with. *)
Lemma get_profile_list_lists dev chan status w items metadata :
  lists dev chan w items metadata ->
  exists stored,
    Mem.mcinstall_get_profile_list dev (connected chan status) (Some None) w
    = Returns (MCINSTALL_E_SUCCESS, connected chan unknown_status, Some stored,
               {| calls := calls w ++ [Send chan list_request; Receive chan];
                  stdout := stdout w |}) /\
    node_dict_get_item stored "OrderedIdentifiers" = Returns (Some (PArray items)) /\
    node_dict_get_item stored "ProfileMetadata" = Returns (Some (PDict metadata)).
Proof.
  intros (Hs & entries & Hr & Hstatus & Hitems & Hmeta).
  eexists. split; [|split].
  - apply (mem_get_profile_list_acknowledged dev chan status None w entries Hs Hr Hstatus).
  - now apply node_dict_get_item_front.
  - now apply node_dict_get_item_front.
Qed.

Lemma firstn_num_profiles (items : list plist) :
  Z.of_nat (List.length items) < 2 ^ 32 ->
  firstn (Z.to_nat (Z.of_nat (List.length items) mod 2 ^ 32)) items = items.
Proof.
  intros H. rewrite Z.mod_small by lia. rewrite Nat2Z.id. apply firstn_all.
Qed.

Lemma profile_loop_list dev to_bin param metadata ids :
  forall mis w err,
    profile_loop dev to_bin OP_LIST param metadata (map PString ids) (mis, w, err)
    = Returns (mis,
               {| calls := calls w;
                  stdout := stdout w ++ map (profile_line metadata) ids |},
               err).
Proof.
  induction ids as [|id ids IH]; intros mis w err.
  - cbn. rewrite app_nil_r. now destruct w.
  - cbn [map profile_loop profile_step op_eqb].
    destruct (profile_entry metadata id) as [[p_name p_uuid] p_vers].
    cbn [bind]. rewrite IH. unfold printf. cbn [calls stdout].
    now rewrite <- app_assoc.
Qed.

(** X14.  The command "list", when the device answers the listing with
    string identifiers and the metadata in front of the Status entry,
    sends the one listing request and nothing else before the channel is
    released, returns 0 and prints the count of profiles followed by one
    line per identifier, in the order of OrderedIdentifiers; a profile
    without uuid or name in the metadata is shown with a placeholder. *)
Theorem main_list_prints c dev to_bin param chan status w ids metadata :
  lists dev chan w (map PString ids) metadata ->
  Z.of_nat (List.length ids) < 2 ^ 32 ->
  main_run c dev to_bin OP_LIST param (connected chan status) w
  = Returns (0,
             {| calls :=
                  calls w ++ [Send chan list_request; Receive chan]
                  ++ release_calls {| parent := Some chan; last_error := unknown_status |};
                stdout :=
                  stdout w ++ profiles_header (Z.of_nat (List.length ids))
                  :: map (profile_line (PDict metadata)) ids |},
             []).
Proof.
  intros Hlists Hlen.
  destruct (get_profile_list_lists dev chan status w _ _ Hlists)
    as (stored & Hrun & Hitems & Hmeta).
  unfold main_run, list_command. cbn [op_eqb]. rewrite Hrun.
  cbn [bind mcinstall_error_eqb mcinstall_error_code Z.eqb].
  rewrite Hitems, Hmeta. cbn [bind]. rewrite length_map in *.
  rewrite Z.mod_small by lia. rewrite Nat2Z.id.
  rewrite <- (length_map PString ids) at 1. rewrite firstn_all.
  rewrite profile_loop_list. cbn [bind]. unfold connected.
  rewrite mcinstall_client_free_calls. cbn [calls stdout printf].
  now rewrite <- !app_assoc.
Qed.

(** X14 on the listing of two profiles. *)
Lemma main_list_prints_witness :
  main_run libc0 (answering (Some listing0)) tlv_encode OP_LIST None
    (connected chan0 0) world0
  = Returns (0,
             {| calls := [Send chan0 list_request; Receive chan0; Release chan0];
                stdout :=
                  [("Device has 2 configuration profiles installed:" ++ newline)%string;
                   ("com.example.wifi - 6A1F-22C0 - Wifi" ++ newline)%string;
                   ("com.example.vpn - (unknown id) - VPN" ++ newline)%string] |},
             []).
Proof.
  apply (main_list_prints libc0 (answering (Some listing0)) tlv_encode None chan0 0
           world0 ["com.example.wifi"; "com.example.vpn"] metadata0).
  - split; [reflexivity|]. eexists. repeat split; reflexivity.
  - cbn. lia.
Defined.

Lemma mcinstall_install_run dev chan status bytes w :
  exists r w',
    mcinstall_install dev (connected chan status) (Some (PData bytes)) w
    = (r, connected chan unknown_status, w') /\
    calls w' =
      calls w ++ Send chan (install_request (PData bytes)) ::
        match send_reply dev (calls w) chan (install_request (PData bytes)) with
        | PROPERTY_LIST_SERVICE_E_SUCCESS => [Receive chan]
        | _ => []
        end.
Proof.
  pose proof (mcinstall_install_status dev chan status bytes w) as Hstatus.
  pose proof (mcinstall_install_calls dev chan status bytes w) as Hcalls.
  destruct (mcinstall_install dev (connected chan status) (Some (PData bytes)) w)
    as [[r mis] w'].
  cbn [fst snd] in Hstatus, Hcalls. subst mis. eauto.
Qed.

(** Read 512 bytes at a time, a file delivers what it holds. *)
Lemma concat_chunks_of fuel :
  forall bytes, (List.length bytes <= fuel)%nat -> List.concat (chunks_of fuel bytes) = bytes.
Proof.
  induction fuel as [|fuel IH]; intros bytes Hfuel.
  - destruct bytes; [reflexivity|cbn in Hfuel; lia].
  - destruct bytes as [|b bytes]; [reflexivity|].
    remember (b :: bytes) as all eqn:Hall.
    assert (chunks_of (S fuel) all = firstn 512 all :: chunks_of fuel (skipn 512 all)) as ->
      by (subst all; reflexivity).
    cbn [List.concat]. rewrite IH; [apply firstn_skipn|].
    pose proof (firstn_512_length all) as Hsplit.
    assert ((0 < List.length (firstn 512 all))%nat) by (subst all; cbn; lia).
    lia.
Qed.

Lemma regular_file_within_size content : within_size (regular_file content).
Proof.
  unfold within_size, regular_file. cbn [file_reads file_size].
  rewrite concat_chunks_of by lia. lia.
Qed.

(** X15.  On a device whose answers have their error chain within
    reach, the command "install" on a file that is read whole sends one
    request, the InstallProfile request whose Payload is the content of
    the file, byte for byte, and returns 0. *)
Theorem main_install_sends_file c dev to_bin path content chan status w :
  fopen c path = Some (regular_file content) ->
  malloc_ok c (Z.of_nat (List.length content)) = true ->
  Z.of_nat (List.length content) < 16777216 ->
  answers_in_reach dev ->
  exists w' err tail,
    main_run c dev to_bin OP_INSTALL (Some path) (connected chan status) w
    = Returns (0, w', err) /\
    calls w' = calls w ++ Send chan (install_request (PData content)) :: tail /\
    count_calls is_send tail = 0%nat.
Proof.
  intros Hopen Hmalloc Hsmall Hdev.
  unfold main_run, install_command. cbn [op_eqb].
  rewrite mem_profile_read_within
    by (intros f Hf; rewrite Hopen in Hf; injection Hf as <-;
        apply regular_file_within_size).
  rewrite (profile_read_regular c path content None 0 Hopen Hmalloc Hsmall).
  cbn [bind Z.eqb negb app]. rewrite Nat2Z.id, firstn_all. unfold plist_new_data.
  rewrite (mem_install_in_reach dev _ _ _ Hdev).
  destruct (mcinstall_install_run dev chan status content w) as (r & w1 & Hrun & Hcalls).
  rewrite Hrun. cbn [bind]. unfold connected.
  destruct (mcinstall_error_eqb r MCINSTALL_E_SUCCESS); cbn [bind];
    rewrite mcinstall_client_free_calls; cbn [calls stdout printf];
    rewrite Hcalls, <- app_assoc; cbn [app];
    do 3 eexists; (split; [reflexivity|split; [reflexivity|]]);
    rewrite count_calls_app; unfold release_calls; cbn [parent service_parent];
    destruct (send_reply _ _ _ _), (service_parent chan); reflexivity.
Qed.

(** X15 on the file of [libc0]. *)
Lemma main_install_sends_file_witness :
  exists w' err tail,
    main_run libc0 (answering (Some acknowledged)) tlv_encode OP_INSTALL
      (Some "wifi.mobileconfig") (connected chan0 0) world0
    = Returns (0, w', err) /\
    calls w' = calls world0 ++ Send chan0 (install_request (PData profile0)) :: tail /\
    count_calls is_send tail = 0%nat.
Proof.
  apply (main_install_sends_file libc0 (answering (Some acknowledged)) tlv_encode
           "wifi.mobileconfig" profile0 chan0 0 world0).
  - reflexivity.
  - reflexivity.
  - cbn. lia.
  - intros l chan response [= <-]. reflexivity.
Defined.

(** The two ways [profile_read_from_file] ends on the bytes the file
    delivers. *)
Lemma profile_read_outcome c path data0 size0 :
  let r := profile_read_from_file c path data0 size0 in
  (fst (fst (fst r)) = 0 /\ snd r = [] /\ exists buf, snd (fst (fst r)) = Some buf) \/
  (fst (fst (fst r)) = -1 /\ snd (fst (fst r)) = data0 /\ snd (fst r) = size0 /\
   List.length (snd r) = 1%nat).
Proof.
  cbv zeta. unfold profile_read_from_file.
  destruct (fopen c path) as [f|]; [|right; cbn; auto].
  destruct (file_size f >=? 16777216); [right; cbn; auto|].
  destruct (malloc_ok c (file_size f)); cbn [negb]; [|right; cbn; auto].
  destruct (read_loop (file_size f) 0 [] (file_reads f)) as [cur buf].
  destruct (cur =? file_size f); cbn [negb]; [left|right]; cbn; eauto.
Qed.

(** X16.  On a file whose reads stay within its size and a device whose
    answers have their error chain within reach, the command "install"
    runs to its end and returns 0, whether the file could be read and
    the profile installed or not; a failure shows only as one line on
    standard error. *)
Theorem main_install_returns_zero c dev to_bin path mis w :
  (forall f, fopen c path = Some f -> within_size f) ->
  answers_in_reach dev ->
  exists w' err,
    main_run c dev to_bin OP_INSTALL (Some path) mis w = Returns (0, w', err) /\
    (List.length err <= 1)%nat.
Proof.
  intros Hfile Hdev.
  unfold main_run, install_command. cbn [op_eqb app].
  rewrite (mem_profile_read_within c path None 0 Hfile).
  pose proof (profile_read_outcome c path None 0) as Hread. cbv zeta in Hread.
  destruct (profile_read_from_file c path None 0) as [[[rc data] size] lines].
  cbn [fst snd] in Hread. cbn [bind].
  destruct Hread as [(-> & -> & buf & ->)|(-> & _ & _ & Hlines)].
  - cbn [Z.eqb negb]. rewrite (mem_install_in_reach dev _ _ _ Hdev).
    destruct (mcinstall_install dev mis _ w) as [[r mis'] w1]. cbn [bind].
    destruct (mcinstall_error_eqb r MCINSTALL_E_SUCCESS); cbn [bind];
      destruct (mcinstall_client_free dev mis' _) as [e w2];
      do 2 eexists; (split; [reflexivity|]); cbn; lia.
  - cbn [Z.eqb negb bind].
    destruct (mcinstall_client_free dev mis w) as [e w2].
    do 2 eexists. split; [reflexivity|]. lia.
Qed.

(** X16 on the file of [libc0] and a device that answers Status "Error"
    with nothing behind it. *)
Lemma main_install_returns_zero_witness :
  exists w' err,
    main_run libc0 (answering (Some (PDict [("Status", PString "Error")]))) tlv_encode
      OP_INSTALL (Some "wifi.mobileconfig") (connected chan0 0) world0
    = Returns (0, w', err) /\
    (List.length err <= 1)%nat.
Proof.
  apply (main_install_returns_zero libc0
           (answering (Some (PDict [("Status", PString "Error")]))) tlv_encode
           "wifi.mobileconfig" (connected chan0 0) world0).
  - intros f [= <-]. unfold within_size. cbn. lia.
  - intros l chan response [= <-]. reflexivity.
Defined.

Example main_install_not_installed :
  main_run libc0 (answering (Some (PDict [("Status", PString "Error")]))) tlv_encode
    OP_INSTALL (Some "wifi.mobileconfig") (connected chan0 0) world0
  = Returns (0,
             {| calls := [Send chan0 (install_request (PData profile0)); Receive chan0;
                          Release chan0];
                stdout := [] |},
             [("Could not install profile 'wifi.mobileconfig', status code: 0xffffff00"
               ++ newline)%string]).
Proof. reflexivity. Qed.

Lemma profile_loop_remove_other dev to_bin p metadata ids :
  ~ In p ids ->
  forall st,
    profile_loop dev to_bin OP_REMOVE (Some p) metadata (map PString ids) st
    = Returns st.
Proof.
  induction ids as [|id ids IH]; intros Hin st; [reflexivity|].
  cbn [map profile_loop profile_step op_eqb].
  destruct (profile_entry metadata id) as [[p_name p_uuid] p_vers].
  destruct (String.eqb p id) eqn:Heq.
  - apply String.eqb_eq in Heq. subst id. contradiction Hin. now left.
  - cbn [bind]. apply IH. intros H. apply Hin. now right.
Qed.

(** X17.  The command "remove" with an identifier that the device does
    not list, on a listing with the identifiers and the metadata in
    front of its Status entry, sends the listing request and nothing
    else, prints nothing on either stream and returns 0. *)
Theorem main_remove_not_listed c dev to_bin p chan status w ids metadata :
  lists dev chan w (map PString ids) metadata ->
  Z.of_nat (List.length ids) < 2 ^ 32 ->
  ~ In p ids ->
  main_run c dev to_bin OP_REMOVE (Some p) (connected chan status) w
  = Returns (0,
             {| calls :=
                  calls w ++ [Send chan list_request; Receive chan]
                  ++ release_calls {| parent := Some chan; last_error := unknown_status |};
                stdout := stdout w |},
             []).
Proof.
  intros Hlists Hlen Hin.
  destruct (get_profile_list_lists dev chan status w _ _ Hlists)
    as (stored & Hrun & Hitems & Hmeta).
  unfold main_run, list_command. cbn [op_eqb]. rewrite Hrun.
  cbn [bind mcinstall_error_eqb mcinstall_error_code Z.eqb].
  rewrite Hitems, Hmeta. cbn [bind]. rewrite length_map in *.
  rewrite Z.mod_small by lia. rewrite Nat2Z.id.
  rewrite <- (length_map PString ids) at 1. rewrite firstn_all.
  rewrite (profile_loop_remove_other dev to_bin p (PDict metadata) ids Hin).
  cbn [bind]. unfold connected.
  rewrite mcinstall_client_free_calls. cbn [calls stdout].
  now rewrite <- !app_assoc.
Qed.

(** X17 on the listing of two profiles and a third identifier. *)
Lemma main_remove_not_listed_witness :
  main_run libc0 (answering (Some listing0)) tlv_encode OP_REMOVE
    (Some "com.example.mail") (connected chan0 0) world0
  = Returns (0,
             {| calls := [Send chan0 list_request; Receive chan0; Release chan0];
                stdout := [] |},
             []).
Proof.
  apply (main_remove_not_listed libc0 (answering (Some listing0)) tlv_encode
           "com.example.mail" chan0 0 world0
           ["com.example.wifi"; "com.example.vpn"] metadata0).
  - split; [reflexivity|]. eexists. repeat split; reflexivity.
  - cbn. lia.
  - cbn. intros [H|[H|[]]]; discriminate H.
Defined.

Lemma mcinstall_remove_refused dev to_bin client identifier uuid version w :
  uuid = None \/ version = 0 ->
  Mem.mcinstall_remove dev to_bin client (Some identifier) uuid version w
  = Returns (MCINSTALL_E_INVALID_ARG, client, w).
Proof.
  intros H. unfold Mem.mcinstall_remove.
  destruct client as [c|]; [|reflexivity]. destruct (parent c); [|reflexivity].
  destruct H as [-> | ->]; [reflexivity|]. now destruct uuid.
Qed.

Lemma mcinstall_remove_cooperative dev to_bin chan status identifier uuid version w :
  cooperative dev ->
  version <> 0 ->
  Mem.mcinstall_remove dev to_bin (connected chan status) (Some identifier) (Some uuid)
    version w
  = Returns (MCINSTALL_E_SUCCESS, connected chan unknown_status,
             {| calls :=
                  calls w
                  ++ [Send chan
                        (remove_request
                           (to_bin (profile_descriptor identifier uuid version)));
                      Receive chan];
                stdout := stdout w |}).
Proof.
  intros Hdev Hv. rewrite (mem_remove_in_reach dev _ _ _ _ _ _ (cooperative_in_reach dev Hdev)).
  f_equal. destruct Hdev as [Hsend Hrecv].
  apply Z.eqb_neq in Hv. unfold_op. rewrite Hv, Hsend. cbn.
  match goal with
  | |- context [receive_reply dev ?l chan] =>
      destruct (Hrecv l chan) as (response & -> & Hstatus)
  end.
  cbn. rewrite (check_result_acknowledged_run (Some response) (-256) Hstatus).
  cbn. unfold log_call, printf. cbn [calls stdout].
  now rewrite <- app_assoc, app_nil_r.
Qed.

(** What the removal of [id] adds to the log, to standard output and to
    standard error on a cooperative device. *)
Lemma remove_and_report_cooperative dev to_bin chan metadata id w err :
  cooperative dev ->
  let '(p_name, p_uuid, p_vers) := profile_entry metadata id in
  remove_and_report dev to_bin id id p_uuid p_vers
    (connected chan unknown_status, w, err)
  = Returns
      (connected chan unknown_status,
       {| calls :=
            calls w ++ match removal_request to_bin metadata id with
                       | Some request => [Send chan request; Receive chan]
                       | None => []
                       end;
          stdout :=
            stdout w ++ match removal_request to_bin metadata id with
                        | Some _ => [removed_line id]
                        | None => []
                        end |},
       err ++ match removal_request to_bin metadata id with
              | Some _ => []
              | None => [not_removed_line id (-256)]
              end).
Proof.
  intros Hdev. unfold removal_request.
  destruct (profile_entry metadata id) as [[p_name [p_uuid|]] p_vers].
  - unfold remove_and_report. destruct (p_vers =? 0) eqn:Hv.
    + apply Z.eqb_eq in Hv. subst p_vers.
      rewrite mcinstall_remove_refused by now right.
      cbn. rewrite !app_nil_r. now destruct w.
    + apply Z.eqb_neq in Hv.
      rewrite (mcinstall_remove_cooperative dev to_bin chan _ id p_uuid p_vers w Hdev Hv).
      cbn. now rewrite app_nil_r.
  - unfold remove_and_report. rewrite mcinstall_remove_refused by now left.
    cbn. rewrite !app_nil_r. now destruct w.
Qed.

Lemma profile_loop_remove_all dev to_bin param chan metadata ids :
  cooperative dev ->
  forall w err,
    profile_loop dev to_bin OP_REMOVE_ALL param metadata (map PString ids)
      (connected chan unknown_status, w, err)
    = Returns
        (connected chan unknown_status,
         {| calls :=
              calls w
              ++ flat_map (fun id => match removal_request to_bin metadata id with
                                     | Some request => [Send chan request; Receive chan]
                                     | None => []
                                     end) ids;
            stdout :=
              stdout w
              ++ flat_map (fun id => match removal_request to_bin metadata id with
                                     | Some _ => [removed_line id]
                                     | None => []
                                     end) ids |},
         err ++ flat_map (fun id => match removal_request to_bin metadata id with
                                    | Some _ => []
                                    | None => [not_removed_line id (-256)]
                                    end) ids).
Proof.
  intros Hdev. induction ids as [|id ids IH]; intros w err.
  - cbn. rewrite !app_nil_r. now destruct w.
  - cbn [map profile_loop profile_step op_eqb flat_map].
    pose proof (remove_and_report_cooperative dev to_bin chan metadata id w err Hdev)
      as Hstep.
    destruct (profile_entry metadata id) as [[p_name p_uuid] p_vers].
    rewrite Hstep. cbn [bind]. rewrite IH. cbn [calls stdout].
    now rewrite <- !app_assoc.
Qed.

(** X18.  On a device that accepts and acknowledges every request, and
    on a listing with the identifiers and the metadata in front of its
    Status entry, the command "remove-all" goes through the listed
    identifiers in the order of OrderedIdentifiers: for each one that
    has a uuid and a version other than 0 in the metadata it sends the
    RemoveProfile request built from them and prints that the profile
    was removed; for any other it sends nothing and reports on standard
    error, with status code 0xffffff00; it returns 0 either way. *)
Theorem main_remove_all_cooperative c dev to_bin param chan status w ids metadata :
  cooperative dev ->
  lists dev chan w (map PString ids) metadata ->
  Z.of_nat (List.length ids) < 2 ^ 32 ->
  let removal id := removal_request to_bin (PDict metadata) id in
  main_run c dev to_bin OP_REMOVE_ALL param (connected chan status) w
  = Returns
      (0,
       {| calls :=
            calls w ++ [Send chan list_request; Receive chan]
            ++ flat_map (fun id => match removal id with
                                   | Some request => [Send chan request; Receive chan]
                                   | None => []
                                   end) ids
            ++ release_calls {| parent := Some chan; last_error := unknown_status |};
          stdout :=
            stdout w
            ++ flat_map (fun id => match removal id with
                                   | Some _ => [removed_line id]
                                   | None => []
                                   end) ids |},
       flat_map (fun id => match removal id with
                           | Some _ => []
                           | None => [not_removed_line id (-256)]
                           end) ids).
Proof.
  intros Hdev Hlists Hlen. cbv zeta.
  destruct (get_profile_list_lists dev chan status w _ _ Hlists)
    as (stored & Hrun & Hitems & Hmeta).
  unfold main_run, list_command. cbn [op_eqb]. rewrite Hrun.
  cbn [bind mcinstall_error_eqb mcinstall_error_code Z.eqb].
  rewrite Hitems, Hmeta. cbn [bind]. rewrite length_map in *.
  rewrite Z.mod_small by lia. rewrite Nat2Z.id.
  rewrite <- (length_map PString ids) at 1. rewrite firstn_all.
  rewrite (profile_loop_remove_all dev to_bin param chan (PDict metadata) ids Hdev).
  cbn [bind]. unfold connected.
  rewrite mcinstall_client_free_calls. cbn [calls stdout app].
  now rewrite <- !app_assoc.
Qed.

(** X18 on the listing of two profiles, of which the second has neither
    uuid nor version. *)
Lemma main_remove_all_cooperative_witness :
  main_run libc0 (answering (Some listing0)) tlv_encode OP_REMOVE_ALL None
    (connected chan0 0) world0
  = Returns
      (0,
       {| calls :=
            [Send chan0 list_request; Receive chan0;
             Send chan0
               (remove_request
                  (tlv_encode (profile_descriptor "com.example.wifi" "6A1F-22C0" 1)));
             Receive chan0; Release chan0];
          stdout := [removed_line "com.example.wifi"] |},
       [("Could not remove profile 'com.example.vpn', status code 0xffffff00"
         ++ newline)%string]).
Proof.
  apply (main_remove_all_cooperative libc0 (answering (Some listing0)) tlv_encode None
           chan0 0 world0 ["com.example.wifi"; "com.example.vpn"] metadata0).
  - split; [reflexivity|]. intros l chan. exists listing0. split; reflexivity.
  - split; [reflexivity|]. eexists. repeat split; reflexivity.
  - cbn. lia.
Defined.

Lemma remove_and_report_refused dev to_bin chan metadata p w err :
  removal_request to_bin metadata p = None ->
  let '(p_name, p_uuid, p_vers) := profile_entry metadata p in
  remove_and_report dev to_bin p p p_uuid p_vers (connected chan unknown_status, w, err)
  = Returns (connected chan unknown_status, w, err ++ [not_removed_line p (-256)]).
Proof.
  unfold removal_request.
  destruct (profile_entry metadata p) as [[p_name [p_uuid|]] p_vers]; intros Hnone.
  - destruct (p_vers =? 0) eqn:Hv; [|discriminate Hnone].
    apply Z.eqb_eq in Hv. subst p_vers.
    unfold remove_and_report. now rewrite mcinstall_remove_refused by now right.
  - unfold remove_and_report. now rewrite mcinstall_remove_refused by now left.
Qed.

Lemma profile_loop_remove_refused dev to_bin chan metadata p ids :
  removal_request to_bin metadata p = None ->
  forall w err,
    profile_loop dev to_bin OP_REMOVE (Some p) metadata (map PString ids)
      (connected chan unknown_status, w, err)
    = Returns (connected chan unknown_status, w,
               err ++ repeat (not_removed_line p (-256)) (count_occ string_dec ids p)).
Proof.
  intros Hnone. induction ids as [|id ids IH]; intros w err.
  - cbn. now rewrite app_nil_r.
  - cbn [map profile_loop profile_step op_eqb count_occ].
    destruct (String.eqb p id) eqn:Heq.
    + apply String.eqb_eq in Heq. subst id.
      pose proof (remove_and_report_refused dev to_bin chan metadata p w err Hnone)
        as Hstep.
      destruct (profile_entry metadata p) as [[p_name p_uuid] p_vers].
      rewrite Hstep. cbn [bind]. rewrite IH.
      destruct (string_dec p p) as [_|Hne]; [|contradiction].
      cbn [repeat]. now rewrite <- app_assoc.
    + apply String.eqb_neq in Heq.
      destruct (profile_entry metadata id) as [[p_name p_uuid] p_vers].
      cbn [bind]. rewrite IH. destruct (string_dec id p) as [Heq'|_]; [|reflexivity].
      now contradiction Heq.
Qed.

(** X19.  The command "remove" with a listed identifier for which the
    metadata hold no uuid or no version other than 0 never asks the
    device to remove anything, whatever the device answers to a removal:
    after a listing with the identifiers and the metadata in front of
    its Status entry it only reports on standard error, once for every
    time the identifier is listed and with status code 0xffffff00, and
    returns 0. *)
Theorem main_remove_without_version c dev to_bin p chan status w ids metadata :
  lists dev chan w (map PString ids) metadata ->
  Z.of_nat (List.length ids) < 2 ^ 32 ->
  removal_request to_bin (PDict metadata) p = None ->
  main_run c dev to_bin OP_REMOVE (Some p) (connected chan status) w
  = Returns
      (0,
       {| calls :=
            calls w ++ [Send chan list_request; Receive chan]
            ++ release_calls {| parent := Some chan; last_error := unknown_status |};
          stdout := stdout w |},
       repeat (not_removed_line p (-256)) (count_occ string_dec ids p)).
Proof.
  intros Hlists Hlen Hnone.
  destruct (get_profile_list_lists dev chan status w _ _ Hlists)
    as (stored & Hrun & Hitems & Hmeta).
  unfold main_run, list_command. cbn [op_eqb]. rewrite Hrun.
  cbn [bind mcinstall_error_eqb mcinstall_error_code Z.eqb].
  rewrite Hitems, Hmeta. cbn [bind]. rewrite length_map in *.
  rewrite Z.mod_small by lia. rewrite Nat2Z.id.
  rewrite <- (length_map PString ids) at 1. rewrite firstn_all.
  rewrite (profile_loop_remove_refused dev to_bin chan (PDict metadata) p ids Hnone).
  cbn [bind]. unfold connected.
  rewrite mcinstall_client_free_calls. cbn [calls stdout app].
  now rewrite <- !app_assoc.
Qed.

(** X19 on the profile of the listing that has neither uuid nor
    version. *)
Lemma main_remove_without_version_witness :
  main_run libc0 (answering (Some listing0)) tlv_encode OP_REMOVE
    (Some "com.example.vpn") (connected chan0 0) world0
  = Returns
      (0,
       {| calls := [Send chan0 list_request; Receive chan0; Release chan0];
          stdout := [] |},
       [("Could not remove profile 'com.example.vpn', status code 0xffffff00"
         ++ newline)%string]).
Proof.
  apply (main_remove_without_version libc0 (answering (Some listing0)) tlv_encode
           "com.example.vpn" chan0 0 world0
           ["com.example.wifi"; "com.example.vpn"] metadata0).
  - split; [reflexivity|]. eexists. repeat split; reflexivity.
  - cbn. lia.
  - reflexivity.
Defined.

(** X20.  On a device whose answers have their error chain within
    reach, when the listing is not acknowledged, the commands "list",
    "remove" and "remove-all" return -1 after at most one request,
    without attempting any removal, and the one line they write to
    standard error gives the status code as 0xffffff00 whatever the
    device answered. *)
Theorem main_listing_failure c dev to_bin op param chan status w :
  op <> OP_INSTALL ->
  answers_in_reach dev ->
  ~ acknowledges dev chan list_request w ->
  exists w',
    main_run c dev to_bin op param (connected chan status) w
    = Returns (-1, w',
               [("Could not get installed profiles from device, status code: 0xffffff00"
                 ++ newline)%string]) /\
    (count_calls is_send (calls w') <= S (count_calls is_send (calls w)))%nat.
Proof.
  intros Hop Hdev Hnack.
  assert (Hlist : op_eqb op OP_INSTALL = false).
  { destruct op; try reflexivity. now contradiction Hop. }
  unfold main_run, list_command. rewrite Hlist. cbv beta iota.
  match goal with
  | |- context [Mem.mcinstall_get_profile_list ?d ?m ?p ?w0] =>
      change (Mem.mcinstall_get_profile_list d m p w0)
        with (Mem.mcinstall_get_profile_list d m (@Some node_t None) w0);
      destruct (mem_get_profile_list_in_reach d m None w0 Hdev) as (stored & Hmem & _);
      cbv zeta in Hmem; rewrite Hmem; clear Hmem
  end.
  match goal with
  | |- context [mcinstall_get_profile_list ?d ?m ?s ?w0] =>
      remember (mcinstall_get_profile_list d m s w0) as r eqn:Hr
  end.
  assert (Hres : fst (fst (fst r)) = exchange_result dev chan list_request w)
    by (rewrite Hr; apply (mcinstall_get_profile_list_result dev chan status None w)).
  assert (Hstatus : snd (fst (fst r)) = connected chan unknown_status)
    by (rewrite Hr; apply (mcinstall_get_profile_list_status dev chan status None w)).
  assert (Hblock : exists block,
             calls (snd r) = calls w ++ block /\
             exchange_on (connected chan status) block)
    by (rewrite Hr; apply mcinstall_get_profile_list_block).
  clear Hr. destruct Hblock as (block & Hcalls & Hblock).
  destruct r as [[[merr mis] profiles] w1].
  cbn [fst snd] in Hres, Hstatus, Hcalls. subst mis. cbn [bind fst snd].
  destruct (mcinstall_error_eqb merr MCINSTALL_E_SUCCESS) eqn:Hok.
  { apply mcinstall_error_eqb_eq in Hok. rewrite Hok in Hres.
    symmetry in Hres. apply exchange_result_success in Hres. contradiction. }
  cbn [bind]. unfold connected. rewrite mcinstall_client_free_calls.
  eexists. split; [reflexivity|]. cbn [calls].
  rewrite Hcalls, !count_calls_app.
  destruct (exchange_on_counts _ _ Hblock) as (Hs & _ & _).
  unfold release_calls. cbn [parent].
  destruct (service_parent chan); cbn; lia.
Qed.

(** X20 on a device that refuses the listing request. *)
Lemma main_listing_failure_witness :
  exists w',
    main_run libc0 (refusing PROPERTY_LIST_SERVICE_E_MUX_ERROR) tlv_encode OP_LIST None
      (connected chan0 0) world0
    = Returns (-1, w',
               [("Could not get installed profiles from device, status code: 0xffffff00"
                 ++ newline)%string]) /\
    (count_calls is_send (calls w') <= S (count_calls is_send (calls world0)))%nat.
Proof.
  apply (main_listing_failure libc0 (refusing PROPERTY_LIST_SERVICE_E_MUX_ERROR)
           tlv_encode OP_LIST None chan0 0 world0).
  - discriminate.
  - intros l chan response H. discriminate H.
  - intros [H _]. discriminate H.
Defined.

(** When the device acknowledges the listing with a dict in which
    OrderedIdentifiers or ProfileMetadata does not stand in front of the
    Status entry, and the entry right behind Status has a value that is
    not a key node, the commands "list", "remove" and "remove-all" do not
    return: the dict that the listing stored has lost the value of
    Status, and the lookup of line 297 or 298 stops at a child that is
    not a key. *)
Theorem main_listing_status_in_front
    c dev to_bin op param chan status w front key item back :
  op <> OP_INSTALL ->
  send_reply dev (calls w) chan list_request = PROPERTY_LIST_SERVICE_E_SUCCESS ->
  receive_reply dev (calls w ++ [Send chan list_request]) chan
  = (PROPERTY_LIST_SERVICE_E_SUCCESS,
     Some (PDict (front ++ ("Status", PString "Acknowledged") :: (key, item) :: back))) ->
  dict_lookup front "Status" = None ->
  dict_lookup front "OrderedIdentifiers" = None \/
  dict_lookup front "ProfileMetadata" = None ->
  plist_get_node_type (Some item) <> PLIST_KEY ->
  main_run c dev to_bin op param (connected chan status) w = Faults.
Proof.
  intros Hop Hs Hr Hfront Hkeys Hitem.
  assert (Hlist : op_eqb op OP_INSTALL = false).
  { destruct op; try reflexivity. now contradiction Hop. }
  destruct (dict_lookup_at front "Status" (PString "Acknowledged") ((key, item) :: back)
              Hfront) as (Hstatus & Hbefore & Hafter).
  pose proof (mem_get_profile_list_acknowledged dev chan status None w _ Hs Hr Hstatus)
    as Hrun.
  rewrite Hbefore, Hafter in Hrun.
  unfold main_run, list_command. rewrite Hlist. cbv beta iota.
  match goal with
  | |- context [Mem.mcinstall_get_profile_list ?d ?m ?p ?w0] =>
      change (Mem.mcinstall_get_profile_list d m p w0)
        with (Mem.mcinstall_get_profile_list d m (@Some node_t None) w0)
  end.
  rewrite Hrun. cbn [bind mcinstall_error_eqb mcinstall_error_code Z.eqb].
  unfold node_dict_get_item. cbn [node_children].
  assert (Hwalk : forall k,
             String.eqb k "Status" = false -> dict_lookup front k = None ->
             children_get_item
               (dict_children front
                ++ PKey "Status" :: dict_children ((key, item) :: back)) k 0
             = Faults).
  { intros k Hk Hnone. rewrite children_get_item_behind_status by exact Hk.
    rewrite Hnone. destruct item; try reflexivity. now contradiction Hitem. }
  destruct Hkeys as [Hids|Hmeta].
  - now rewrite (Hwalk "OrderedIdentifiers" eq_refl Hids).
  - rewrite (Hwalk "ProfileMetadata" eq_refl Hmeta).
    now destruct (children_get_item _ "OrderedIdentifiers" 0).
Qed.

(** The same on a listing whose Status entry comes first. *)
Lemma main_listing_status_in_front_witness :
  main_run libc0
    (answering (Some (PDict ([] ++ ("Status", PString "Acknowledged")
                             :: ("OrderedIdentifiers", PArray [])
                             :: [("ProfileMetadata", PDict [])]))))
    tlv_encode OP_LIST None (connected chan0 0) world0
  = Faults.
Proof.
  apply (main_listing_status_in_front libc0 _ tlv_encode OP_LIST None chan0 0 world0
           [] "OrderedIdentifiers" (PArray []) [("ProfileMetadata", PDict [])]).
  - discriminate.
  - reflexivity.
  - reflexivity.
  - reflexivity.
  - left. reflexivity.
  - cbn. discriminate.
Defined.
